(** * web3-eth: transaction type detection

    A shallow embedding of
    [packages/web3-eth/src/utils/detect_transaction_type.ts]:
    the per-type compatibility schemas, [validateTxTypeAndHandleErrors],
    [defaultTransactionTypeParser], [detectTransactionType] and
    [detectRawTransactionType], followed by the properties of the
    classifier and of the raw sniffer.

    JavaScript values are a small inductive type; a transaction is a JS
    object, i.e. a finite map from property names to values, so that a
    statement quantified over transactions really ranges over every set
    of populated fields.  Exceptions are an explicit outcome type. *)

From Stdlib Require Import ZArith NArith String Ascii HexadecimalString.
From stdpp Require Import gmap strings list fin_maps.

Set Warnings "-register-all".
Open Scope Z_scope.

(** ** JavaScript values *)

(** Numbers are the integer-valued ones; a type tag, a fee or a byte never
    needs more.  Objects map property names to values. *)
Inductive JSValue : Type :=
| JUndefined
| JNull
| JBool (b : bool)
| JNumber (n : Z)
| JString (s : string)
| JArray (items : list JSValue)
| JObject (props : gmap string JSValue).

(** [o.k]: reading a property that the object does not have gives
    [undefined]. *)
Definition prop (o : gmap string JSValue) (k : string) : JSValue :=
  default JUndefined (o !! k).

Notation "o '.[' k ']'" := (prop o k) (at level 1, left associativity, format "o .[ k ]").

(** Modelled from the spec: [isNullish] is imported from web3-validator;
    "absent" and "null" are equivalent, both denote a field that is not
    meaningfully set. *)
Definition isNullish (v : JSValue) : bool :=
  match v with
  | JUndefined | JNull => true
  | _ => false
  end.

(** [v === undefined] *)
Definition isUndefined (v : JSValue) : bool :=
  match v with
  | JUndefined => true
  | _ => false
  end.

(** [v === s] for a string literal [s]: strict equality never converts. *)
Definition strictEqString (v : JSValue) (s : string) : bool :=
  match v with
  | JString t => String.eqb t s
  | _ => false
  end.

(** [a ?? b] *)
Definition nullishCoalesce (a b : JSValue) : JSValue :=
  if isNullish a then b else a.

(** [v?.k]: [undefined] on a nullish [v]; a primitive or an array has no
    own property of the names used here. *)
Definition optionalChain (v : JSValue) (k : string) : JSValue :=
  match v with
  | JObject o => o.[k]
  | _ => JUndefined
  end.

(** [keys.indexOf(v)] on an array of strings: the first position that is
    strictly equal to [v], and -1 when there is none. *)
Fixpoint indexOfFrom (i : Z) (keys : list string) (v : JSValue) : Z :=
  match keys with
  | [] => -1
  | k :: rest => if strictEqString v k then i else indexOfFrom (i + 1) rest v
  end.

Definition indexOf (keys : list string) (v : JSValue) : Z :=
  indexOfFrom 0 keys v.

(** ** Outcomes: a returned value or a thrown error *)

(** The only error the classifier constructs:
    [new InvalidPropertiesForTransactionTypeError(error.errors, txType)].
    The validator's error list is kept as the names of the offending
    properties. *)
Inductive Thrown : Type :=
| InvalidPropertiesForTransactionTypeError (errors : list string) (txType : string).

Inductive Outcome (A : Type) : Type :=
| Return (a : A)
| Throw (e : Thrown).

Arguments Return {A} a.
Arguments Throw {A} e.

#[export] Instance Outcome_ret : MRet Outcome := fun A a => Return a.

#[export] Instance Outcome_bind : MBind Outcome := fun A B k m =>
  match m with
  | Return a => k a
  | Throw e => Throw e
  end.

(** ** JSON schemas and the validator *)

Inductive JsonType : Type :=
| TypeObject
| TypeNull.

(** [{ type: ..., properties: { k: { type: ... }, ... } }] *)
Record JsonSchema : Type := {
  schemaType : JsonType;
  properties : list (string * JsonType)
}.

(** "undefined is treated as null for JSON schema validator" *)
Definition hasJsonType (ty : JsonType) (v : JSValue) : bool :=
  match ty with
  | TypeNull => isNullish v
  | TypeObject => match v with JObject _ => true | _ => false end
  end.

(** Modelled from the spec: [validator.validateJSONSchema] is imported from
    web3-validator.  For each property of the schema
    whose value on the record is not of the required type (here: a
    forbidden field that is present, non-null) a violation is collected;
    it fails with a [Web3ValidatorError] carrying the violations if there
    is any, and does not fail if there is none.  The data is the
    transaction object, so the schema's own ['object'] type holds. *)
Definition validateJSONSchema (schema : JsonSchema) (data : gmap string JSValue)
  : list string + unit :=
  let errors :=
    List.map fst
      (List.filter (fun p => negb (hasJsonType (snd p) (data.[fst p])))
         (properties schema)) in
  match errors with
  | [] => inr tt
  | _ => inl errors
  end.

(** ** The schemas of the three transaction types *)

Definition transactionType0x0Schema : JsonSchema := {|
  schemaType := TypeObject;
  properties := [("accessList", TypeNull);
                 ("maxFeePerGas", TypeNull);
                 ("maxPriorityFeePerGas", TypeNull)]
|}.

Definition transactionType0x1Schema : JsonSchema := {|
  schemaType := TypeObject;
  properties := [("maxFeePerGas", TypeNull);
                 ("maxPriorityFeePerGas", TypeNull)]
|}.

Definition transactionType0x2Schema : JsonSchema := {|
  schemaType := TypeObject;
  properties := [("gasPrice", TypeNull)]
|}.

(** The [try]/[catch] around the validator: a [Web3ValidatorError] is
    rethrown as the typed error with the type it was checked against. *)
Definition validateTxTypeAndHandleErrors
    (txSchema : JsonSchema) (tx : gmap string JSValue) (txType : string)
  : Outcome unit :=
  match validateJSONSchema txSchema tx with
  | inr _ => Return tt
  | inl errors => Throw (InvalidPropertiesForTransactionTypeError errors txType)
  end.

(** ** The field-based classifier *)

Section Classifier.

(** [Object.keys(HardforksOrdered)]: the enum is imported from
    web3-types, so its key list, oldest first, is a parameter. *)
Variable HardforksOrdered : list string.

(** [format({ format: 'uint' }, v, ETH_DATA_FORMAT)], imported from
    web3-utils: a parameter as well. *)
Variable formatUint : JSValue -> JSValue.

(** The [switch (tx.type)]: the schema of a known tag, together with the
    tag [tx.type] is known to be in that case; [None] is [default]. *)
Definition switchType (ty : JSValue) : option (JsonSchema * string) :=
  if strictEqString ty "0x0" then Some (transactionType0x0Schema, "0x0"%string)
  else if strictEqString ty "0x1" then Some (transactionType0x1Schema, "0x1"%string)
  else if strictEqString ty "0x2" then Some (transactionType0x2Schema, "0x2"%string)
  else None.

(** [tx.hardfork ?? tx.common?.hardfork] *)
Definition givenHardfork (tx : gmap string JSValue) : JSValue :=
  nullishCoalesce (tx.["hardfork"]) (optionalChain (tx.["common"]) "hardfork").

(** From [const givenHardfork = ...] to the end of the function. *)
Definition hardforkFallback (tx : gmap string JSValue) : Outcome JSValue :=
  let givenHardfork := givenHardfork tx in
  if isUndefined givenHardfork then Return JUndefined
  else
    let hardforkIndex := indexOf HardforksOrdered givenHardfork in
    if isUndefined (JNumber hardforkIndex) then Return JUndefined
    else if hardforkIndex >=? indexOf HardforksOrdered (JString "london") then
      Return (if negb (isNullish (tx.["gasPrice"]))
              then JString "0x0" else JString "0x2")
    else if hardforkIndex =? indexOf HardforksOrdered (JString "berlin") then
      Return (JString "0x0")
    else Return JUndefined.

(** The [if (!isNullish(tx.gasPrice))] validation before the fallback. *)
Definition gasPriceOnlyCheck (tx : gmap string JSValue) : Outcome unit :=
  if negb (isNullish (tx.["gasPrice"])) then
    validateTxTypeAndHandleErrors transactionType0x0Schema tx "0x0"
  else Return tt.

Definition defaultTransactionTypeParser (transaction : gmap string JSValue)
  : Outcome JSValue :=
  let tx := transaction in
  if negb (isNullish (tx.["type"])) then
    match switchType (tx.["type"]) with
    | None => Return (formatUint (tx.["type"]))
    | Some (txSchema, txType) =>
        validateTxTypeAndHandleErrors txSchema tx txType ;;
        Return (formatUint (tx.["type"]))
    end
  else if negb (isNullish (tx.["gas"])) && negb (isNullish (tx.["gasPrice"])) then
    validateTxTypeAndHandleErrors transactionType0x0Schema tx "0x0" ;;
    Return (JString "0x0")
  else if negb (isNullish (tx.["maxFeePerGas"]))
          || negb (isNullish (tx.["maxPriorityFeePerGas"])) then
    validateTxTypeAndHandleErrors transactionType0x2Schema tx "0x2" ;;
    Return (JString "0x2")
  else if negb (isNullish (tx.["accessList"])) then
    validateTxTypeAndHandleErrors transactionType0x1Schema tx "0x1" ;;
    Return (JString "0x1")
  else
    gasPriceOnlyCheck tx ;;
    hardforkFallback tx.

(** [(web3Context?.transactionTypeParser ?? defaultTransactionTypeParser)(transaction)] *)
Definition detectTransactionType
    (transaction : gmap string JSValue)
    (transactionTypeParser : option (gmap string JSValue -> Outcome JSValue))
  : Outcome JSValue :=
  default defaultTransactionTypeParser transactionTypeParser transaction.

End Classifier.

(** ** The raw sniffer *)

(** Lower-case hexadecimal digits of a natural number, without padding. *)
Definition hexDigits (n : N) : string :=
  NilZero.string_of_uint (N.to_hex_uint n).

(** Modelled from the spec: [numberToHex] of web3-utils, which [toHex]
    uses on a number.  It gives the two-character prefix ["0x"] followed
    by the lower-case hexadecimal digits of the value, without padding
    (byte [0x02] gives ["0x2"]). *)
Definition numberToHex (n : Z) : string :=
  if n <? 0 then "-0x" ++ hexDigits (Z.to_N (- n))
  else "0x" ++ hexDigits (Z.to_N n).

(** Modelled from the spec: [toHex] is imported from web3-utils.  Only its
    case for a number is needed; other arguments are outside this model
    ([None]). *)
Definition toHex (v : JSValue) : option string :=
  match v with
  | JNumber n => Some (numberToHex n)
  | _ => None
  end.

(** [transaction[0]] on a [Uint8Array]: [undefined] when it is empty. *)
Definition firstByte (transaction : list Byte.byte) : JSValue :=
  match transaction with
  | [] => JUndefined
  | b :: _ => JNumber (Z.of_N (Byte.to_N b))
  end.

(** [v > n] for a number literal [n]; [undefined > n] is [false]. *)
Definition greaterThan (v : JSValue) (n : Z) : bool :=
  match v with
  | JNumber m => m >? n
  | _ => false
  end.

Definition detectRawTransactionType (transaction : list Byte.byte) : option string :=
  if greaterThan (firstByte transaction) 127 then Some "0x0"%string
  else toHex (firstByte transaction).

(** ** Instances of the imported parts *)

(** Modelled from the spec: the [HardforksOrdered] enum of web3-types, a
    fixed sequence of upgrade names, oldest first, in which [homestead]
    precedes [berlin] and [berlin] precedes [london]. *)
Definition web3HardforksOrdered : list string :=
  ["chainstart"; "frontier"; "homestead"; "dao"; "tangerineWhistle";
   "spuriousDragon"; "byzantium"; "constantinople"; "petersburg";
   "istanbul"; "muirGlacier"; "berlin"; "london"; "altair";
   "arrowGlacier"; "grayGlacier"; "bellatrix"; "merge"; "capella";
   "shanghai"]%string.

Definition hexDigitValue (c : ascii) : option N :=
  let n := N_of_ascii c in
  if (48 <=? n)%N && (n <=? 57)%N then Some (n - 48)%N
  else if (97 <=? n)%N && (n <=? 102)%N then Some (n - 87)%N
  else if (65 <=? n)%N && (n <=? 70)%N then Some (n - 55)%N
  else None.

Definition decDigitValue (c : ascii) : option N :=
  let n := N_of_ascii c in
  if (48 <=? n)%N && (n <=? 57)%N then Some (n - 48)%N else None.

(** Digits of [s] in the given base, most significant first, onto [acc]. *)
Fixpoint parseDigits (base : N) (digit : ascii -> option N) (s : string) (acc : N)
  : option N :=
  match s with
  | EmptyString => Some acc
  | String c rest =>
      match digit c with
      | Some d => parseDigits base digit rest (acc * base + d)%N
      | None => None
      end
  end.

(** The unsigned integer a value denotes: a number, a ["0x"]-prefixed
    hexadecimal string or a decimal string, each with at least one digit. *)
Definition toBigInt (v : JSValue) : option Z :=
  match v with
  | JNumber n => if n <? 0 then None else Some n
  | JString (String "0" (String "x" (String c rest))) =>
      Z.of_N <$> parseDigits 16 hexDigitValue (String c rest) 0%N
  | JString (String c rest) =>
      Z.of_N <$> parseDigits 10 decDigitValue (String c rest) 0%N
  | _ => None
  end.

(** Modelled from the spec: [format] with the [uint] schema and the hex
    data format, imported from web3-utils, renders a value as a canonical
    uint: every spelling of an unsigned integer (['0x00'], ['0x0']) becomes
    ["0x"] followed by its hexadecimal digits without leading zeros, and a
    value that denotes no unsigned integer is passed through. *)
Definition formatUintHex (v : JSValue) : JSValue :=
  match toBigInt v with
  | Some n => JString (numberToHex n)
  | None => v
  end.

(** The classifier as exported, with the imported parts in place. *)
Definition web3TransactionTypeParser : gmap string JSValue -> Outcome JSValue :=
  defaultTransactionTypeParser web3HardforksOrdered formatUintHex.

(** ** Vocabulary of the statements *)

(** The three recognized tags, as the strings the [switch] compares with. *)
Definition knownTags : list string := ["0x0"; "0x1"; "0x2"]%string.

(** What the classifier needs of the formatter on a recognized tag: the
    canonical spelling is left as it is. *)
Definition fixesKnownTags (formatUint : JSValue -> JSValue) : Prop :=
  forall tag, In tag knownTags -> formatUint (JString tag) = JString tag.

(** [ty] is exactly one of the three tag strings. *)
Definition isKnownTag (ty : JSValue) : bool :=
  strictEqString ty "0x0" || strictEqString ty "0x1" || strictEqString ty "0x2".

(** ** Sample transactions *)

Definition sampleTransfer : list (string * JSValue) :=
  [("from", JString "0x6e599da0bff7a6598ac1224e4985430bf16458a4");
   ("to", JString "0x1337c75fdf978ababaacc038a1dcd580fec28ab2");
   ("value", JString "0x2710")]%string.

(** Only [gasPrice], on a given hardfork. *)
Definition txGasPriceOn (hardfork : string) : gmap string JSValue :=
  list_to_map (sampleTransfer ++
    [("gasPrice", JString "0x3b9aca00"); ("hardfork", JString hardfork)]%string).

(** No fee field at all; the hardfork comes from [common]. *)
Definition txBareOnCommon (hardfork : string) : gmap string JSValue :=
  list_to_map (sampleTransfer ++
    [("common", JObject (list_to_map [("hardfork", JString hardfork)]%string))]%string).

(** No fee field and no hardfork anywhere. *)
Definition txBare : gmap string JSValue := list_to_map sampleTransfer.

Definition txLegacy : gmap string JSValue :=
  list_to_map (sampleTransfer ++
    [("gas", JString "0x5208"); ("gasPrice", JString "0x3b9aca00")]%string).

Definition txDynamicFee : gmap string JSValue :=
  list_to_map (sampleTransfer ++
    [("gas", JString "0x5208"); ("maxFeePerGas", JString "0x59682f00");
     ("maxPriorityFeePerGas", JString "0x1dcd6500")]%string).

Definition txAccessList : gmap string JSValue :=
  list_to_map (sampleTransfer ++
    [("gasPrice", JString "0x3b9aca00"); ("accessList", JArray [])]%string).

(** The same records with an explicit type. *)
Definition txTyped (ty : JSValue) (tx : gmap string JSValue) : gmap string JSValue :=
  <["type" := ty]> tx.

(** ** Vocabulary of the further properties *)

(** The names among [names] whose property is set (non-nullish) on the
    record, in the order of [names]. *)
Definition presentFields (tx : gmap string JSValue) (names : list string) : list string :=
  List.filter (fun k => negb (isNullish (tx.[k]))) names.

(** The properties a schema constrains. *)
Definition schemaFields (schema : JsonSchema) : list string :=
  List.map fst (properties schema).

(** The fee and access-list properties the rules on field presence test. *)
Definition shapeFields : list string :=
  ["gas"; "gasPrice"; "maxFeePerGas"; "maxPriorityFeePerGas"; "accessList"]%string.

(** Every property the classifier reads from the record. *)
Definition readFields : list string :=
  ("type" :: shapeFields ++ ["hardfork"; "common"])%string.

(** The conditions of lines 81, 109, 114 and 119: one of them holds, so
    the function returns or throws before the hardfork is looked at. *)
Definition decidedByFields (tx : gmap string JSValue) : bool :=
  negb (isNullish (tx.["type"]))
  || (negb (isNullish (tx.["gas"])) && negb (isNullish (tx.["gasPrice"])))
  || (negb (isNullish (tx.["maxFeePerGas"]))
      || negb (isNullish (tx.["maxPriorityFeePerGas"])))
  || negb (isNullish (tx.["accessList"])).

(** A record with more on it than the classifier reads. *)
Definition txVerbose : gmap string JSValue :=
  list_to_map (sampleTransfer ++
    [("gas", JString "0x5208"); ("gasPrice", JString "0x3b9aca00");
     ("nonce", JNumber 7); ("data", JString "0x"); ("chainId", JString "0x1")]%string).

(** * Properties *)

(** ** Reading properties *)

Lemma prop_insert_eq (o : gmap string JSValue) (k : string) (v : JSValue) :
  (<[k := v]> o).[k] = v.
Proof. unfold prop. by rewrite lookup_insert_eq. Qed.

Lemma prop_insert_ne (o : gmap string JSValue) (k k' : string) (v : JSValue) :
  k <> k' -> (<[k := v]> o).[k'] = o.[k'].
Proof. intros Hne. unfold prop. by rewrite lookup_insert_ne. Qed.

Lemma strictEqString_true (v : JSValue) (s : string) :
  strictEqString v s = true <-> v = JString s.
Proof.
  destruct v; simpl; try (split; [discriminate | congruence]).
  rewrite String.eqb_eq. split; congruence.
Qed.

Lemma isUndefined_isNullish (v : JSValue) :
  isUndefined v = true -> isNullish v = true.
Proof. by destruct v. Qed.

(** ** The validator on the three schemas *)

Lemma validate_0x0_ok (tx : gmap string JSValue) (txType : string) :
  isNullish (tx.["accessList"]) = true ->
  isNullish (tx.["maxFeePerGas"]) = true ->
  isNullish (tx.["maxPriorityFeePerGas"]) = true ->
  validateTxTypeAndHandleErrors transactionType0x0Schema tx txType = Return tt.
Proof.
  intros Ha Hf Hp.
  unfold validateTxTypeAndHandleErrors, validateJSONSchema; simpl.
  by rewrite Ha, Hf, Hp.
Qed.

Lemma validate_0x0_accessList (tx : gmap string JSValue) (txType : string) :
  isNullish (tx.["accessList"]) = false ->
  exists rest,
    validateTxTypeAndHandleErrors transactionType0x0Schema tx txType
    = Throw (InvalidPropertiesForTransactionTypeError ("accessList" :: rest) txType).
Proof.
  intros Ha.
  unfold validateTxTypeAndHandleErrors, validateJSONSchema; simpl.
  rewrite Ha; simpl. eauto.
Qed.

Lemma validate_0x1_ok (tx : gmap string JSValue) (txType : string) :
  isNullish (tx.["maxFeePerGas"]) = true ->
  isNullish (tx.["maxPriorityFeePerGas"]) = true ->
  validateTxTypeAndHandleErrors transactionType0x1Schema tx txType = Return tt.
Proof.
  intros Hf Hp.
  unfold validateTxTypeAndHandleErrors, validateJSONSchema; simpl.
  by rewrite Hf, Hp.
Qed.

Lemma validate_0x2_ok (tx : gmap string JSValue) (txType : string) :
  isNullish (tx.["gasPrice"]) = true ->
  validateTxTypeAndHandleErrors transactionType0x2Schema tx txType = Return tt.
Proof.
  intros Hg.
  unfold validateTxTypeAndHandleErrors, validateJSONSchema; simpl.
  by rewrite Hg.
Qed.

(** The validator reads the properties its schema names and nothing else. *)
Lemma validate_agree (schema : JsonSchema) (tx tx' : gmap string JSValue) (txType : string) :
  (forall p, In p (properties schema) -> tx'.[fst p] = tx.[fst p]) ->
  validateTxTypeAndHandleErrors schema tx' txType
  = validateTxTypeAndHandleErrors schema tx txType.
Proof.
  intros Hsame.
  unfold validateTxTypeAndHandleErrors, validateJSONSchema.
  replace (List.filter (fun p => negb (hasJsonType (snd p) (tx'.[fst p]))) (properties schema))
    with (List.filter (fun p => negb (hasJsonType (snd p) (tx.[fst p]))) (properties schema)); [done |].
  apply List.filter_ext_in. intros p Hp. by rewrite (Hsame p Hp).
Qed.

(** ** The switch on the explicit type *)

Lemma switchType_0x0 : switchType (JString "0x0") = Some (transactionType0x0Schema, "0x0"%string).
Proof. reflexivity. Qed.

Lemma switchType_0x1 : switchType (JString "0x1") = Some (transactionType0x1Schema, "0x1"%string).
Proof. reflexivity. Qed.

Lemma switchType_0x2 : switchType (JString "0x2") = Some (transactionType0x2Schema, "0x2"%string).
Proof. reflexivity. Qed.

Lemma switchType_default (ty : JSValue) :
  ty <> JString "0x0" -> ty <> JString "0x1" -> ty <> JString "0x2" ->
  switchType ty = None.
Proof.
  intros H0 H1 H2. unfold switchType.
  destruct (strictEqString ty "0x0") eqn:E0; [by apply strictEqString_true in E0 |].
  destruct (strictEqString ty "0x1") eqn:E1; [by apply strictEqString_true in E1 |].
  destruct (strictEqString ty "0x2") eqn:E2; [by apply strictEqString_true in E2 |].
  done.
Qed.

Section ClassifierFacts.

Variable HardforksOrdered : list string.
Variable formatUint : JSValue -> JSValue.

Abbreviation parser := (defaultTransactionTypeParser HardforksOrdered formatUint).
Abbreviation fallback := (hardforkFallback HardforksOrdered).
Abbreviation rank := (indexOf HardforksOrdered).

(** Without an explicit type and with no rule on field presence
    matching, the classifier is its last two steps. *)
Lemma parser_unmatched (tx : gmap string JSValue) :
  isNullish (tx.["type"]) = true ->
  negb (isNullish (tx.["gas"])) && negb (isNullish (tx.["gasPrice"])) = false ->
  isNullish (tx.["maxFeePerGas"]) = true ->
  isNullish (tx.["maxPriorityFeePerGas"]) = true ->
  isNullish (tx.["accessList"]) = true ->
  parser tx = (gasPriceOnlyCheck tx ;; fallback tx).
Proof.
  intros Hty Hgas Hf Hp Ha. unfold defaultTransactionTypeParser.
  by rewrite Hty, Hgas, Hf, Hp, Ha.
Qed.

Lemma gasPriceOnlyCheck_ok (tx : gmap string JSValue) :
  isNullish (tx.["maxFeePerGas"]) = true ->
  isNullish (tx.["maxPriorityFeePerGas"]) = true ->
  isNullish (tx.["accessList"]) = true ->
  gasPriceOnlyCheck tx = Return tt.
Proof.
  intros Hf Hp Ha. unfold gasPriceOnlyCheck.
  destruct (negb (isNullish (tx.["gasPrice"]))); [| done].
  by apply validate_0x0_ok.
Qed.

Lemma parser_fallback (tx : gmap string JSValue) :
  isNullish (tx.["type"]) = true ->
  negb (isNullish (tx.["gas"])) && negb (isNullish (tx.["gasPrice"])) = false ->
  isNullish (tx.["maxFeePerGas"]) = true ->
  isNullish (tx.["maxPriorityFeePerGas"]) = true ->
  isNullish (tx.["accessList"]) = true ->
  parser tx = fallback tx.
Proof.
  intros Hty Hgas Hf Hp Ha.
  rewrite parser_unmatched by done.
  by rewrite gasPriceOnlyCheck_ok.
Qed.

(** C10: on the path to the validation of a record that carries only
    [gasPrice] (no explicit type; the rules on gas and gasPrice, on the
    dynamic-fee fields and on the access list all unmatched), the check
    against the Legacy schema returns normally, so the classifier goes on
    to the hardfork fallback and the error branch of that call is never
    taken. *)
Theorem gasPrice_only_validation_never_raises (tx : gmap string JSValue) :
  isNullish (tx.["type"]) = true ->
  negb (isNullish (tx.["gas"])) && negb (isNullish (tx.["gasPrice"])) = false ->
  negb (isNullish (tx.["maxFeePerGas"]))
    || negb (isNullish (tx.["maxPriorityFeePerGas"])) = false ->
  negb (isNullish (tx.["accessList"])) = false ->
  isNullish (tx.["accessList"]) = true
  /\ isNullish (tx.["maxFeePerGas"]) = true
  /\ isNullish (tx.["maxPriorityFeePerGas"]) = true
  /\ validateTxTypeAndHandleErrors transactionType0x0Schema tx "0x0" = Return tt
  /\ gasPriceOnlyCheck tx = Return tt
  /\ parser tx = fallback tx.
Proof.
  intros Hty Hgas Hfee Hacc.
  apply orb_false_elim in Hfee as [Hf Hp].
  apply negb_false_iff in Hf, Hp, Hacc.
  repeat split; try done.
  - by apply validate_0x0_ok.
  - by apply gasPriceOnlyCheck_ok.
  - by apply parser_fallback.
Qed.

(** An explicit type that is one of the three tags: validation against
    the schema of that tag, then the formatted tag. *)
Lemma parser_known_type (tx : gmap string JSValue) (schema : JsonSchema) (tag : string) :
  tx.["type"] = JString tag ->
  switchType (JString tag) = Some (schema, tag) ->
  parser tx
  = (validateTxTypeAndHandleErrors schema tx tag ;; Return (formatUint (JString tag))).
Proof.
  intros Hty Hsw. unfold defaultTransactionTypeParser.
  by rewrite Hty, Hsw.
Qed.

(** An explicit type that is none of the three tags: the [default] case. *)
Lemma parser_default_type (tx : gmap string JSValue) :
  isNullish (tx.["type"]) = false ->
  isKnownTag (tx.["type"]) = false ->
  parser tx = Return (formatUint (tx.["type"])).
Proof.
  intros Hty Hknown. unfold defaultTransactionTypeParser, switchType.
  unfold isKnownTag in Hknown.
  apply orb_false_elim in Hknown as [Hknown H2].
  apply orb_false_elim in Hknown as [H0 H1].
  by rewrite Hty, H0, H1, H2.
Qed.

(** C2: an explicit type that is exactly one of ['0x0'], ['0x1'], ['0x2'],
    on a record without the fields its schema forbids, is returned as it
    is, whatever the other fields and the hardfork table are. *)
Theorem explicit_type_returned_unchanged (tx : gmap string JSValue) :
  fixesKnownTags formatUint ->
  (tx.["type"] = JString "0x0" ->
   isNullish (tx.["accessList"]) = true ->
   isNullish (tx.["maxFeePerGas"]) = true ->
   isNullish (tx.["maxPriorityFeePerGas"]) = true ->
   parser tx = Return (JString "0x0"))
  /\ (tx.["type"] = JString "0x1" ->
      isNullish (tx.["maxFeePerGas"]) = true ->
      isNullish (tx.["maxPriorityFeePerGas"]) = true ->
      parser tx = Return (JString "0x1"))
  /\ (tx.["type"] = JString "0x2" ->
      isNullish (tx.["gasPrice"]) = true ->
      parser tx = Return (JString "0x2")).
Proof.
  intros Hfmt. repeat split.
  - intros Hty Ha Hf Hp.
    rewrite (parser_known_type tx _ _ Hty switchType_0x0).
    rewrite validate_0x0_ok by done. simpl.
    f_equal. apply Hfmt. simpl; auto.
  - intros Hty Hf Hp.
    rewrite (parser_known_type tx _ _ Hty switchType_0x1).
    rewrite validate_0x1_ok by done. simpl.
    f_equal. apply Hfmt. simpl; auto.
  - intros Hty Hg.
    rewrite (parser_known_type tx _ _ Hty switchType_0x2).
    rewrite validate_0x2_ok by done. simpl.
    f_equal. apply Hfmt. simpl; auto.
Qed.

(** C3: an explicit type ['0x0'] on a record with a non-null [accessList]
    raises [InvalidPropertiesForTransactionTypeError] for type ['0x0'],
    with [accessList] among the offending properties; no tag is returned. *)
Theorem explicit_legacy_with_accessList_raises (tx : gmap string JSValue) :
  tx.["type"] = JString "0x0" ->
  isNullish (tx.["accessList"]) = false ->
  (exists errors,
      parser tx = Throw (InvalidPropertiesForTransactionTypeError errors "0x0")
      /\ In "accessList"%string errors)
  /\ (forall tag, parser tx <> Return tag).
Proof.
  intros Hty Ha.
  rewrite (parser_known_type tx _ _ Hty switchType_0x0).
  destruct (validate_0x0_accessList tx "0x0" Ha) as [rest ->]. simpl.
  split; [| done].
  exists ("accessList"%string :: rest). split; [done | by left].
Qed.

(** C9: a type that is present but is not exactly one of the three tag
    strings is formatted and returned; no schema is checked and nothing is
    raised, whatever the other fields are. *)
Theorem unrecognized_type_formatted_and_returned (tx : gmap string JSValue) :
  isNullish (tx.["type"]) = false ->
  tx.["type"] <> JString "0x0" ->
  tx.["type"] <> JString "0x1" ->
  tx.["type"] <> JString "0x2" ->
  parser tx = Return (formatUint (tx.["type"]))
  /\ (forall e, parser tx <> Throw e).
Proof.
  intros Hty H0 H1 H2.
  assert (Hknown : isKnownTag (tx.["type"]) = false).
  { unfold isKnownTag.
    destruct (strictEqString (tx.["type"]) "0x0") eqn:E0; [by apply strictEqString_true in E0 |].
    destruct (strictEqString (tx.["type"]) "0x1") eqn:E1; [by apply strictEqString_true in E1 |].
    destruct (strictEqString (tx.["type"]) "0x2") eqn:E2; [by apply strictEqString_true in E2 |].
    done. }
  rewrite parser_default_type by done. by split.
Qed.

(** C4, amended: without an explicit type, [gas] and [gasPrice] both
    present and no dynamic-fee or access-list field give ['0x0'], whatever
    the hardfork table and the hardfork fields of the record are. *)
Theorem gas_and_gasPrice_untyped_is_legacy (tx : gmap string JSValue) :
  isNullish (tx.["type"]) = true ->
  isNullish (tx.["gas"]) = false ->
  isNullish (tx.["gasPrice"]) = false ->
  isNullish (tx.["maxFeePerGas"]) = true ->
  isNullish (tx.["maxPriorityFeePerGas"]) = true ->
  isNullish (tx.["accessList"]) = true ->
  parser tx = Return (JString "0x0").
Proof.
  intros Hty Hgas Hgp Hf Hp Ha. unfold defaultTransactionTypeParser.
  rewrite Hty, Hgas, Hgp. simpl.
  by rewrite validate_0x0_ok.
Qed.

(** C5, amended: without an explicit type, [maxFeePerGas] present and
    [gasPrice] absent give ['0x2']. *)
Theorem maxFeePerGas_untyped_is_dynamic_fee (tx : gmap string JSValue) :
  isNullish (tx.["type"]) = true ->
  isNullish (tx.["maxFeePerGas"]) = false ->
  isNullish (tx.["gasPrice"]) = true ->
  parser tx = Return (JString "0x2").
Proof.
  intros Hty Hf Hgp. unfold defaultTransactionTypeParser.
  rewrite Hty, Hf, Hgp. simpl. rewrite andb_false_r.
  by rewrite validate_0x2_ok.
Qed.

(** ** The hardfork fallback *)

Lemma fallback_undefined (tx : gmap string JSValue) :
  givenHardfork tx = JUndefined -> fallback tx = Return JUndefined.
Proof. intros Hgiven. unfold hardforkFallback. by rewrite Hgiven. Qed.

Lemma fallback_defined (tx : gmap string JSValue) :
  isUndefined (givenHardfork tx) = false ->
  fallback tx
  = if rank (givenHardfork tx) >=? rank (JString "london") then
      Return (if negb (isNullish (tx.["gasPrice"])) then JString "0x0" else JString "0x2")
    else if rank (givenHardfork tx) =? rank (JString "berlin") then Return (JString "0x0")
    else Return JUndefined.
Proof. intros Hgiven. unfold hardforkFallback. by rewrite Hgiven. Qed.

Lemma indexOfFrom_not_string (i : Z) (keys : list string) (v : JSValue) :
  (forall s, v <> JString s) -> indexOfFrom i keys v = -1.
Proof.
  intros Hv. revert i. induction keys as [| k rest IH]; intros i; simpl; [done |].
  destruct (strictEqString v k) eqn:E; [| apply IH].
  apply strictEqString_true in E. by destruct (Hv k).
Qed.

Lemma indexOfFrom_range (i : Z) (keys : list string) (v : JSValue) :
  0 <= i ->
  indexOfFrom i keys v = -1
  \/ i <= indexOfFrom i keys v < i + Z.of_nat (length keys).
Proof.
  revert i. induction keys as [| k rest IH]; intros i Hi; simpl; [by left |].
  destruct (strictEqString v k); [right; lia |].
  destruct (IH (i + 1)) as [-> | Hin]; [lia | by left | right; lia].
Qed.

(** C1: a record without explicit type whose only type-relevant field is
    [gasPrice].  The effective hardfork is the [hardfork] field, else the
    one of [common]; at or after London the result is ['0x0'], at Berlin
    it is ['0x0'], before Berlin it is [undefined].  Without [gasPrice]
    as well, at or after London the result is ['0x2']. *)
Theorem gasPrice_only_follows_hardfork (tx : gmap string JSValue) (name : string) :
  isNullish (tx.["type"]) = true ->
  isNullish (tx.["gas"]) = true ->
  isNullish (tx.["maxFeePerGas"]) = true ->
  isNullish (tx.["maxPriorityFeePerGas"]) = true ->
  isNullish (tx.["accessList"]) = true ->
  givenHardfork tx
  = (if isNullish (tx.["hardfork"])
     then optionalChain (tx.["common"]) "hardfork" else tx.["hardfork"])
  /\ (givenHardfork tx = JString name ->
      (isNullish (tx.["gasPrice"]) = false ->
       (0 <= rank (JString name) ->
        rank (JString "london") <= rank (JString name) ->
        parser tx = Return (JString "0x0"))
       /\ (name = "berlin"%string -> parser tx = Return (JString "0x0"))
       /\ (rank (JString "berlin") < rank (JString "london") ->
           0 <= rank (JString name) < rank (JString "berlin") ->
           parser tx = Return JUndefined))
      /\ (isNullish (tx.["gasPrice"]) = true ->
          0 <= rank (JString name) ->
          rank (JString "london") <= rank (JString name) ->
          parser tx = Return (JString "0x2"))).
Proof.
  intros Hty Hgas Hf Hp Ha. split; [done |].
  intros Hgiven.
  assert (Hparser : parser tx = fallback tx).
  { apply parser_fallback; try done. by rewrite Hgas. }
  rewrite Hparser, fallback_defined by (by rewrite Hgiven).
  rewrite Hgiven. split.
  - intros Hgp. rewrite Hgp. simpl. repeat split.
    + intros _ Hlondon.
      by destruct (Z.geb_spec (rank (JString name)) (rank (JString "london"))); [| lia].
    + intros ->.
      destruct (rank (JString "berlin") >=? rank (JString "london")); [done |].
      by rewrite Z.eqb_refl.
    + intros Horder [Hknown Hold].
      destruct (Z.geb_spec (rank (JString name)) (rank (JString "london"))); [lia |].
      by destruct (Z.eqb_spec (rank (JString name)) (rank (JString "berlin"))); [lia |].
  - intros Hgp _ Hlondon. rewrite Hgp. simpl.
    by destruct (Z.geb_spec (rank (JString name)) (rank (JString "london"))); [| lia].
Qed.

Lemma indexOfFrom_In (i : Z) (keys : list string) (s : string) :
  In s keys -> 0 <= i -> 0 <= indexOfFrom i keys (JString s).
Proof.
  revert i. induction keys as [| k rest IH]; intros i Hin Hi; simpl; [done |].
  destruct (String.eqb s k) eqn:E; [done |].
  destruct Hin as [-> | Hin]; [by rewrite String.eqb_refl in E |].
  apply IH; [done | lia].
Qed.

Lemma indexOfFrom_not_In (i : Z) (keys : list string) (s : string) :
  ~ In s keys -> indexOfFrom i keys (JString s) = -1.
Proof.
  revert i. induction keys as [| k rest IH]; intros i Hin; simpl; [done |].
  destruct (String.eqb_spec s k) as [-> | Hne].
  - destruct Hin. by left.
  - apply IH. intros Hrest. apply Hin. by right.
Qed.

(** What is resolved is no name of the ordering: its position is -1. *)
Lemma rank_unknown (v : JSValue) :
  (forall s, v = JString s -> ~ In s HardforksOrdered) -> rank v = -1.
Proof.
  intros Hv. destruct v;
    try (apply indexOfFrom_not_string; intros s' Hs'; discriminate Hs').
  apply indexOfFrom_not_In. by apply Hv.
Qed.

(** C6: a record without explicit type on which no rule on field presence
    matches is never a reason to raise: when no hardfork can be resolved,
    and when what is resolved is not a name of the ordering, the result is
    [undefined]. *)
Theorem indeterminate_is_returned_not_raised (tx : gmap string JSValue) :
  isNullish (tx.["type"]) = true ->
  negb (isNullish (tx.["gas"])) && negb (isNullish (tx.["gasPrice"])) = false ->
  isNullish (tx.["maxFeePerGas"]) = true ->
  isNullish (tx.["maxPriorityFeePerGas"]) = true ->
  isNullish (tx.["accessList"]) = true ->
  (givenHardfork tx = JUndefined -> parser tx = Return JUndefined)
  /\ (In "london"%string HardforksOrdered ->
      In "berlin"%string HardforksOrdered ->
      (forall s, givenHardfork tx = JString s -> ~ In s HardforksOrdered) ->
      parser tx = Return JUndefined).
Proof.
  intros Hty Hgas Hf Hp Ha.
  rewrite parser_fallback by done. split.
  - apply fallback_undefined.
  - intros Hlondon Hberlin Hunknown.
    apply (indexOfFrom_In 0) in Hlondon, Hberlin; try done.
    apply rank_unknown in Hunknown.
    destruct (isUndefined (givenHardfork tx)) eqn:Hgiven.
    + unfold hardforkFallback. by rewrite Hgiven.
    + rewrite fallback_defined, Hunknown by done.
      unfold indexOf.
      destruct (Z.geb_spec (-1) (indexOfFrom 0 HardforksOrdered (JString "london"))); [lia |].
      by destruct (Z.eqb_spec (-1) (indexOfFrom 0 HardforksOrdered (JString "berlin"))); [lia |].
Qed.

(** ** Feeding the result back as the explicit type *)

(** Setting [type] changes no property a schema reads. *)
Lemma validate_retyped (schema : JsonSchema) (tx : gmap string JSValue)
    (ty : JSValue) (txType : string) :
  In schema [transactionType0x0Schema; transactionType0x1Schema; transactionType0x2Schema] ->
  validateTxTypeAndHandleErrors schema (<["type" := ty]> tx) txType
  = validateTxTypeAndHandleErrors schema tx txType.
Proof.
  intros Hschema. apply validate_agree. intros p Hp.
  apply prop_insert_ne.
  simpl in Hschema. destruct Hschema as [<- | [<- | [<- | []]]]; simpl in Hp;
    repeat (destruct Hp as [<- | Hp]; [done |]); destruct Hp.
Qed.

Lemma parser_retyped (tx : gmap string JSValue) (schema : JsonSchema) (tag : string) :
  fixesKnownTags formatUint ->
  In tag knownTags ->
  switchType (JString tag) = Some (schema, tag) ->
  In schema [transactionType0x0Schema; transactionType0x1Schema; transactionType0x2Schema] ->
  validateTxTypeAndHandleErrors schema tx tag = Return tt ->
  parser (<["type" := JString tag]> tx) = Return (JString tag).
Proof.
  intros Hfmt Htag Hsw Hschema Hvalid.
  rewrite (parser_known_type _ schema tag) by (done || apply prop_insert_eq).
  rewrite validate_retyped, Hvalid by done. simpl.
  f_equal. by apply Hfmt.
Qed.

Lemma isKnownTag_true (ty : JSValue) :
  isKnownTag ty = true ->
  ty = JString "0x0" \/ ty = JString "0x1" \/ ty = JString "0x2".
Proof.
  unfold isKnownTag. intros H.
  apply orb_true_iff in H as [H | H]; [apply orb_true_iff in H as [H | H] |];
    apply strictEqString_true in H; auto.
Qed.

Ltac returned_unit H :=
  match type of H with
  | context [validateTxTypeAndHandleErrors ?schema ?tx ?tag] =>
      let Hv := fresh "Hvalid" in
      destruct (validateTxTypeAndHandleErrors schema tx tag) as [[] |] eqn:Hv;
      simpl in H; [| discriminate H]
  end.

Ltac retyped Hfmt :=
  eapply parser_retyped; [exact Hfmt | simpl; auto | reflexivity | simpl; auto | ].

(** C7, amended: when the type field is absent, or is exactly one of the
    three tag strings, or is formatted to something other than these tags
    on which formatting is stable, a returned tag that is fed back as the
    explicit type, the other fields unchanged, is returned again and
    nothing is raised. *)
Theorem reclassifying_returned_tag (tx : gmap string JSValue) (tag : JSValue) :
  fixesKnownTags formatUint ->
  isNullish (tx.["type"]) = true
  \/ isKnownTag (tx.["type"]) = true
  \/ (isKnownTag (formatUint (tx.["type"])) = false
      /\ isNullish (formatUint (tx.["type"])) = false
      /\ formatUint (formatUint (tx.["type"])) = formatUint (tx.["type"])) ->
  parser tx = Return tag ->
  tag <> JUndefined ->
  parser (<["type" := tag]> tx) = Return tag.
Proof.
  intros Hfmt Hcases Hret Htag.
  destruct (isNullish (tx.["type"])) eqn:Hty.
  - (* inferred from the fields *)
    clear Hcases. unfold defaultTransactionTypeParser in Hret. rewrite Hty in Hret.
    simpl in Hret.
    destruct (negb (isNullish (tx.["gas"])) && negb (isNullish (tx.["gasPrice"]))) eqn:Hgas.
    { returned_unit Hret. injection Hret as <-. by retyped Hfmt. }
    destruct (negb (isNullish (tx.["maxFeePerGas"]))
              || negb (isNullish (tx.["maxPriorityFeePerGas"]))) eqn:Hfee.
    { returned_unit Hret. injection Hret as <-. by retyped Hfmt. }
    apply orb_false_elim in Hfee as [Hf Hp]. apply negb_false_iff in Hf, Hp.
    destruct (negb (isNullish (tx.["accessList"]))) eqn:Ha.
    { returned_unit Hret. injection Hret as <-. by retyped Hfmt. }
    apply negb_false_iff in Ha.
    rewrite gasPriceOnlyCheck_ok in Hret by done. simpl in Hret.
    unfold hardforkFallback in Hret.
    destruct (isUndefined (givenHardfork tx)); [by injection Hret as <- |].
    simpl in Hret.
    destruct (_ >=? _).
    { destruct (isNullish (tx.["gasPrice"])) eqn:Hgp; simpl in Hret; injection Hret as <-.
      - retyped Hfmt. by apply validate_0x2_ok.
      - retyped Hfmt. by apply validate_0x0_ok. }
    destruct (_ =? _); injection Hret as <-; [| done].
    retyped Hfmt. by apply validate_0x0_ok.
  - destruct (isKnownTag (tx.["type"])) eqn:Hknown.
    + (* an explicit, recognized tag *)
      clear Hcases.
      apply isKnownTag_true in Hknown as [Hk | [Hk | Hk]].
      * rewrite (parser_known_type tx _ _ Hk switchType_0x0) in Hret.
        returned_unit Hret. rewrite Hfmt in Hret by (simpl; auto).
        injection Hret as <-. by retyped Hfmt.
      * rewrite (parser_known_type tx _ _ Hk switchType_0x1) in Hret.
        returned_unit Hret. rewrite Hfmt in Hret by (simpl; auto).
        injection Hret as <-. by retyped Hfmt.
      * rewrite (parser_known_type tx _ _ Hk switchType_0x2) in Hret.
        returned_unit Hret. rewrite Hfmt in Hret by (simpl; auto).
        injection Hret as <-. by retyped Hfmt.
    + (* an explicit type that stays opaque *)
      destruct Hcases as [Hc | [Hc | (Hopaque & Hpresent & Hstable)]]; try discriminate Hc.
      rewrite parser_default_type in Hret by done. injection Hret as <-.
      rewrite parser_default_type; rewrite prop_insert_eq; try done.
      by rewrite Hstable.
Qed.

End ClassifierFacts.

(** ** The raw sniffer *)

(** C8: on a non-empty byte sequence only the first byte is read; above
    127 the result is ["0x0"], otherwise it is the two-character prefix
    ["0x"] followed by the hexadecimal digits of the byte itself, one or
    two of them, as for [0xc0] and [0x02]; there is always a result. *)
Theorem sniffer_reads_first_byte (b : Byte.byte) (rest : list Byte.byte) :
  detectRawTransactionType (b :: rest) = detectRawTransactionType [b]
  /\ detectRawTransactionType (b :: rest)
     = Some (if (127 <? Byte.to_N b)%N then "0x0"%string
             else ("0x" ++ hexDigits (Byte.to_N b))%string)
  /\ parseDigits 16 hexDigitValue (hexDigits (Byte.to_N b)) 0%N = Some (Byte.to_N b)
  /\ (1 <= String.length (hexDigits (Byte.to_N b)) <= 2)%nat
  /\ detectRawTransactionType [Byte.xc0] = Some "0x0"%string
  /\ detectRawTransactionType [Byte.x02] = Some "0x2"%string.
Proof.
  split; [reflexivity |].
  split; [| split; [| split; [| split; reflexivity]]].
  - destruct b; reflexivity.
  - destruct b; reflexivity.
  - destruct b; vm_compute; lia.
Qed.

(** * Instances on the sample transactions *)

Lemma formatUintHex_fixesKnownTags : fixesKnownTags formatUintHex.
Proof. intros tag [<- | [<- | [<- | []]]]; reflexivity. Defined.

Lemma gasPrice_only_validation_never_raises_witness :
  validateTxTypeAndHandleErrors transactionType0x0Schema (txGasPriceOn "homestead") "0x0"
  = Return tt
  /\ web3TransactionTypeParser (txGasPriceOn "homestead")
     = hardforkFallback web3HardforksOrdered (txGasPriceOn "homestead").
Proof.
  destruct (gasPrice_only_validation_never_raises web3HardforksOrdered formatUintHex
              (txGasPriceOn "homestead"))
    as (_ & _ & _ & Hvalid & _ & Hparser); [reflexivity .. |].
  exact (conj Hvalid Hparser).
Defined.

Lemma explicit_type_returned_unchanged_witness :
  web3TransactionTypeParser (txTyped (JString "0x0") txLegacy) = Return (JString "0x0")
  /\ web3TransactionTypeParser (txTyped (JString "0x1") txAccessList) = Return (JString "0x1")
  /\ web3TransactionTypeParser (txTyped (JString "0x2") txDynamicFee) = Return (JString "0x2").
Proof.
  split; [| split].
  - apply (explicit_type_returned_unchanged web3HardforksOrdered formatUintHex
             (txTyped (JString "0x0") txLegacy) formatUintHex_fixesKnownTags);
      reflexivity.
  - apply (explicit_type_returned_unchanged web3HardforksOrdered formatUintHex
             (txTyped (JString "0x1") txAccessList) formatUintHex_fixesKnownTags);
      reflexivity.
  - apply (explicit_type_returned_unchanged web3HardforksOrdered formatUintHex
             (txTyped (JString "0x2") txDynamicFee) formatUintHex_fixesKnownTags);
      reflexivity.
Defined.

Lemma explicit_legacy_with_accessList_raises_witness :
  exists errors,
    web3TransactionTypeParser (txTyped (JString "0x0") txAccessList)
    = Throw (InvalidPropertiesForTransactionTypeError errors "0x0")
    /\ In "accessList"%string errors.
Proof.
  apply (explicit_legacy_with_accessList_raises web3HardforksOrdered formatUintHex
           (txTyped (JString "0x0") txAccessList)); reflexivity.
Defined.

Lemma unrecognized_type_formatted_and_returned_witness :
  web3TransactionTypeParser (txTyped (JString "0x00") txAccessList)
  = Return (formatUintHex (JString "0x00"))
  /\ web3TransactionTypeParser (txTyped (JNumber 2) txLegacy)
     = Return (formatUintHex (JNumber 2)).
Proof.
  split.
  - apply (unrecognized_type_formatted_and_returned web3HardforksOrdered formatUintHex
             (txTyped (JString "0x00") txAccessList));
      (reflexivity || (vm_compute; discriminate)).
  - apply (unrecognized_type_formatted_and_returned web3HardforksOrdered formatUintHex
             (txTyped (JNumber 2) txLegacy));
      (reflexivity || (vm_compute; discriminate)).
Defined.

Lemma gas_and_gasPrice_untyped_is_legacy_witness :
  isNullish (txLegacy.["type"]) = true
  /\ isNullish (txLegacy.["gas"]) = false
  /\ isNullish (txLegacy.["gasPrice"]) = false
  /\ web3TransactionTypeParser txLegacy = Return (JString "0x0").
Proof.
  do 3 (split; [reflexivity |]).
  apply (gas_and_gasPrice_untyped_is_legacy web3HardforksOrdered formatUintHex txLegacy);
    reflexivity.
Defined.

Lemma maxFeePerGas_untyped_is_dynamic_fee_witness :
  isNullish (txDynamicFee.["type"]) = true
  /\ isNullish (txDynamicFee.["maxFeePerGas"]) = false
  /\ isNullish (txDynamicFee.["gasPrice"]) = true
  /\ web3TransactionTypeParser txDynamicFee = Return (JString "0x2").
Proof.
  do 3 (split; [reflexivity |]).
  apply (maxFeePerGas_untyped_is_dynamic_fee web3HardforksOrdered formatUintHex txDynamicFee);
    reflexivity.
Defined.

Ltac rank_facts := vm_compute; repeat split; (reflexivity || discriminate).

Lemma gasPrice_only_follows_hardfork_witness :
  web3TransactionTypeParser (txGasPriceOn "london") = Return (JString "0x0")
  /\ web3TransactionTypeParser (txGasPriceOn "berlin") = Return (JString "0x0")
  /\ web3TransactionTypeParser (txGasPriceOn "homestead") = Return JUndefined
  /\ web3TransactionTypeParser (txBareOnCommon "shanghai") = Return (JString "0x2").
Proof.
  split; [| split; [| split]].
  - destruct (gasPrice_only_follows_hardfork web3HardforksOrdered formatUintHex
                (txGasPriceOn "london") "london") as [_ Hnamed]; [reflexivity .. |].
    destruct (Hnamed eq_refl) as [Hprice _].
    destruct (Hprice eq_refl) as (Hlondon & _ & _).
    apply Hlondon; rank_facts.
  - destruct (gasPrice_only_follows_hardfork web3HardforksOrdered formatUintHex
                (txGasPriceOn "berlin") "berlin") as [_ Hnamed]; [reflexivity .. |].
    destruct (Hnamed eq_refl) as [Hprice _].
    destruct (Hprice eq_refl) as (_ & Hberlin & _).
    apply Hberlin; reflexivity.
  - destruct (gasPrice_only_follows_hardfork web3HardforksOrdered formatUintHex
                (txGasPriceOn "homestead") "homestead") as [_ Hnamed]; [reflexivity .. |].
    destruct (Hnamed eq_refl) as [Hprice _].
    destruct (Hprice eq_refl) as (_ & _ & Hold).
    apply Hold; rank_facts.
  - destruct (gasPrice_only_follows_hardfork web3HardforksOrdered formatUintHex
                (txBareOnCommon "shanghai") "shanghai") as [_ Hnamed]; [reflexivity .. |].
    destruct (Hnamed eq_refl) as [_ Hnone].
    apply Hnone; rank_facts.
Defined.

Lemma indeterminate_is_returned_not_raised_witness :
  web3TransactionTypeParser txBare = Return JUndefined
  /\ web3TransactionTypeParser (txGasPriceOn "petersburgh") = Return JUndefined.
Proof.
  split.
  - destruct (indeterminate_is_returned_not_raised web3HardforksOrdered formatUintHex txBare)
      as [Hnone _]; [reflexivity .. |].
    apply Hnone; reflexivity.
  - destruct (indeterminate_is_returned_not_raised web3HardforksOrdered formatUintHex
                (txGasPriceOn "petersburgh")) as [_ Hunknown]; [reflexivity .. |].
    apply Hunknown.
    + simpl; tauto.
    + simpl; tauto.
    + intros s Hs. vm_compute in Hs. injection Hs as <-.
      simpl. intuition discriminate.
Defined.

Lemma reclassifying_returned_tag_witness :
  web3TransactionTypeParser (txGasPriceOn "london") = Return (JString "0x0")
  /\ web3TransactionTypeParser (<["type" := JString "0x0"]> (txGasPriceOn "london"))
     = Return (JString "0x0")
  /\ web3TransactionTypeParser (txTyped (JString "0x05") txLegacy) = Return (JString "0x5")
  /\ web3TransactionTypeParser (<["type" := JString "0x5"]> (txTyped (JString "0x05") txLegacy))
     = Return (JString "0x5").
Proof.
  split; [reflexivity |]. split; [| split; [reflexivity |]].
  - apply (reclassifying_returned_tag web3HardforksOrdered formatUintHex
             (txGasPriceOn "london") (JString "0x0") formatUintHex_fixesKnownTags);
      [left; reflexivity | reflexivity | discriminate].
  - apply (reclassifying_returned_tag web3HardforksOrdered formatUintHex
             (txTyped (JString "0x05") txLegacy) (JString "0x5") formatUintHex_fixesKnownTags);
      [right; right; repeat split; reflexivity | reflexivity | discriminate].
Defined.

(** ** Where the statements need their amendment *)

(** C4 as stated fails on a record that declares its type: with [gas] and
    [gasPrice] present and no dynamic-fee or access-list field, an
    explicit ['0x1'] is what is returned, not ['0x0']. *)
Lemma gas_and_gasPrice_with_explicit_type :
  isNullish ((txTyped (JString "0x1") txLegacy).["gas"]) = false
  /\ isNullish ((txTyped (JString "0x1") txLegacy).["gasPrice"]) = false
  /\ isNullish ((txTyped (JString "0x1") txLegacy).["maxFeePerGas"]) = true
  /\ isNullish ((txTyped (JString "0x1") txLegacy).["maxPriorityFeePerGas"]) = true
  /\ isNullish ((txTyped (JString "0x1") txLegacy).["accessList"]) = true
  /\ web3TransactionTypeParser (txTyped (JString "0x1") txLegacy) = Return (JString "0x1")
  /\ web3TransactionTypeParser (txTyped (JString "0x1") txLegacy) <> Return (JString "0x0").
Proof. repeat split; try reflexivity. vm_compute. discriminate. Qed.

(** C5 as stated fails on a record that declares its type: with
    [maxFeePerGas] present and [gasPrice] absent, an explicit ['0x0']
    makes the classifier raise instead of returning ['0x2']. *)
Lemma maxFeePerGas_with_explicit_type :
  isNullish ((txTyped (JString "0x0") txDynamicFee).["maxFeePerGas"]) = false
  /\ isNullish ((txTyped (JString "0x0") txDynamicFee).["gasPrice"]) = true
  /\ web3TransactionTypeParser (txTyped (JString "0x0") txDynamicFee)
     = Throw (InvalidPropertiesForTransactionTypeError
                ["maxFeePerGas"; "maxPriorityFeePerGas"] "0x0")
  /\ web3TransactionTypeParser (txTyped (JString "0x0") txDynamicFee) <> Return (JString "0x2").
Proof. repeat split; try reflexivity. vm_compute. discriminate. Qed.

(** C7 as stated fails on another spelling of a recognized tag: ['0x00']
    is not validated and comes back as ['0x0'], and ['0x0'] fed back on
    the same record, which carries an access list, raises. *)
Lemma reclassifying_respelled_tag_raises :
  web3TransactionTypeParser (txTyped (JString "0x00") txAccessList) = Return (JString "0x0")
  /\ web3TransactionTypeParser
       (<["type" := JString "0x0"]> (txTyped (JString "0x00") txAccessList))
     = Throw (InvalidPropertiesForTransactionTypeError ["accessList"] "0x0")
  /\ web3TransactionTypeParser
       (<["type" := JString "0x0"]> (txTyped (JString "0x00") txAccessList))
     <> Return (JString "0x0").
Proof. repeat split; try reflexivity. vm_compute. discriminate. Qed.

(** * Further properties of the classifier *)

(** ** What the validator reports *)

Lemma presentFields_nil (tx : gmap string JSValue) (names : list string) :
  presentFields tx names = [] <-> forall k, In k names -> isNullish (tx.[k]) = true.
Proof.
  unfold presentFields. induction names as [| n rest IH]; simpl.
  - split; [intros _ k [] | done].
  - destruct (isNullish (tx.[n])) eqn:Hn; simpl.
    + rewrite IH. split.
      * intros Hrest k [<- | Hk]; [done | by apply Hrest].
      * intros Hall k Hk. apply Hall. by right.
    + split; [done |]. intros Hall. specialize (Hall n (or_introl eq_refl)). congruence.
Qed.

Lemma presentFields_In (tx : gmap string JSValue) (names : list string) (k : string) :
  In k (presentFields tx names) <-> In k names /\ isNullish (tx.[k]) = false.
Proof.
  unfold presentFields. rewrite List.filter_In, negb_true_iff. tauto.
Qed.

(** On a schema that only forbids properties, the wrapper throws exactly
    the forbidden properties that are set, and returns if there is none. *)
Lemma validate_presentFields (schema : JsonSchema) (tx : gmap string JSValue) (txType : string) :
  (forall p, In p (properties schema) -> snd p = TypeNull) ->
  validateTxTypeAndHandleErrors schema tx txType
  = match presentFields tx (schemaFields schema) with
    | [] => Return tt
    | errors => Throw (InvalidPropertiesForTransactionTypeError errors txType)
    end.
Proof.
  intros Hnull. unfold validateTxTypeAndHandleErrors, validateJSONSchema.
  assert (Hsame :
    List.map fst
      (List.filter (fun p => negb (hasJsonType (snd p) (tx.[fst p]))) (properties schema))
    = presentFields tx (schemaFields schema)).
  { unfold presentFields, schemaFields.
    induction (properties schema) as [| p rest IH]; simpl; [done |].
    rewrite (Hnull p) by (by left). simpl.
    destruct (isNullish (tx.[fst p])); simpl; rewrite IH; try done;
      intros q Hq; apply Hnull; by right. }
  rewrite Hsame. by destruct (presentFields tx (schemaFields schema)).
Qed.

Lemma switchType_Some (ty : JSValue) (schema : JsonSchema) (tag : string) :
  switchType ty = Some (schema, tag) ->
  ty = JString tag
  /\ In tag knownTags
  /\ In schema [transactionType0x0Schema; transactionType0x1Schema; transactionType0x2Schema]
  /\ (forall p, In p (properties schema) -> snd p = TypeNull).
Proof.
  unfold switchType. intros H.
  destruct (strictEqString ty "0x0") eqn:E0;
    [| destruct (strictEqString ty "0x1") eqn:E1;
       [| destruct (strictEqString ty "0x2") eqn:E2; [| discriminate H]]];
    injection H as <- <-;
    (split; [by apply strictEqString_true |]);
    (split; [simpl; tauto |]); (split; [simpl; tauto |]);
    intros p Hp; simpl in Hp; intuition (subst; reflexivity).
Qed.

Lemma schema_only_forbids (schema : JsonSchema) :
  In schema [transactionType0x0Schema; transactionType0x1Schema; transactionType0x2Schema] ->
  forall p, In p (properties schema) -> snd p = TypeNull.
Proof.
  intros Hschema p Hp. simpl in Hschema.
  destruct Hschema as [<- | [<- | [<- | []]]]; simpl in Hp; intuition (subst; reflexivity).
Qed.

Section ClassifierRules.

Variable HardforksOrdered : list string.
Variable formatUint : JSValue -> JSValue.

Abbreviation parser := (defaultTransactionTypeParser HardforksOrdered formatUint).

(** X1: without an explicit type, an access list on a record that has no
    dynamic-fee field and not both [gas] and [gasPrice] gives ['0x1'];
    the validation on that path cannot fail. *)
Theorem accessList_untyped_is_access_list (tx : gmap string JSValue) :
  isNullish (tx.["type"]) = true ->
  isNullish (tx.["gas"]) = true \/ isNullish (tx.["gasPrice"]) = true ->
  isNullish (tx.["maxFeePerGas"]) = true ->
  isNullish (tx.["maxPriorityFeePerGas"]) = true ->
  isNullish (tx.["accessList"]) = false ->
  validateTxTypeAndHandleErrors transactionType0x1Schema tx "0x1" = Return tt
  /\ parser tx = Return (JString "0x1").
Proof.
  intros Hty Hpair Hf Hp Ha.
  assert (Hvalid : validateTxTypeAndHandleErrors transactionType0x1Schema tx "0x1" = Return tt)
    by (by apply validate_0x1_ok).
  split; [done |].
  unfold defaultTransactionTypeParser. rewrite Hty, Hf, Hp, Ha, Hvalid. simpl.
  by destruct Hpair as [-> | ->]; simpl; rewrite ?andb_false_r.
Qed.

(** X2: without an explicit type and without [gasPrice], either
    dynamic-fee field, [maxPriorityFeePerGas] alone included, gives
    ['0x2'], with or without [gas] and an access list. *)
Theorem dynamic_fee_field_untyped_is_dynamic_fee (tx : gmap string JSValue) :
  isNullish (tx.["type"]) = true ->
  isNullish (tx.["gasPrice"]) = true ->
  isNullish (tx.["maxFeePerGas"]) = false
  \/ isNullish (tx.["maxPriorityFeePerGas"]) = false ->
  parser tx = Return (JString "0x2").
Proof.
  intros Hty Hgp Hfee.
  unfold defaultTransactionTypeParser.
  rewrite Hty, Hgp, validate_0x2_ok by done. simpl. rewrite andb_false_r.
  by destruct Hfee as [-> | ->]; simpl; rewrite ?orb_true_r.
Qed.

(** X3: without an explicit type, a dynamic-fee field together with
    [gasPrice] but without [gas] is rejected for type ['0x2'], and
    [gasPrice] is the one property reported. *)
Theorem dynamic_fee_with_gasPrice_raises (tx : gmap string JSValue) :
  isNullish (tx.["type"]) = true ->
  isNullish (tx.["gas"]) = true ->
  isNullish (tx.["gasPrice"]) = false ->
  isNullish (tx.["maxFeePerGas"]) = false
  \/ isNullish (tx.["maxPriorityFeePerGas"]) = false ->
  parser tx = Throw (InvalidPropertiesForTransactionTypeError ["gasPrice"] "0x2").
Proof.
  intros Hty Hgas Hgp Hfee.
  unfold defaultTransactionTypeParser.
  rewrite Hty, Hgas, Hgp. simpl.
  assert (Hguard : negb (isNullish (tx.["maxFeePerGas"]))
                   || negb (isNullish (tx.["maxPriorityFeePerGas"])) = true)
    by (by destruct Hfee as [-> | ->]; simpl; rewrite ?orb_true_r).
  rewrite Hguard.
  unfold validateTxTypeAndHandleErrors, validateJSONSchema. simpl. by rewrite Hgp.
Qed.

(** X4: without an explicit type, [gas] and [gasPrice] together win over
    the later rules: if a dynamic-fee field or an access list is set as
    well, the record is rejected for type ['0x0'] with exactly the set
    ones reported, and is never classified ['0x2'] or ['0x1']. *)
Theorem legacy_shape_with_newer_fields_raises (tx : gmap string JSValue) :
  isNullish (tx.["type"]) = true ->
  isNullish (tx.["gas"]) = false ->
  isNullish (tx.["gasPrice"]) = false ->
  isNullish (tx.["accessList"]) = false
  \/ isNullish (tx.["maxFeePerGas"]) = false
  \/ isNullish (tx.["maxPriorityFeePerGas"]) = false ->
  presentFields tx ["accessList"; "maxFeePerGas"; "maxPriorityFeePerGas"]%string <> []
  /\ parser tx
     = Throw (InvalidPropertiesForTransactionTypeError
                (presentFields tx ["accessList"; "maxFeePerGas"; "maxPriorityFeePerGas"]%string)
                "0x0").
Proof.
  intros Hty Hgas Hgp Hnewer.
  assert (Hsome : presentFields tx ["accessList"; "maxFeePerGas"; "maxPriorityFeePerGas"]%string
                  <> []).
  { rewrite presentFields_nil. intros Hall.
    destruct Hnewer as [H | [H | H]]; rewrite Hall in H; try discriminate H; simpl; tauto. }
  split; [done |].
  unfold defaultTransactionTypeParser. rewrite Hty, Hgas, Hgp.
  rewrite validate_presentFields
    by (apply schema_only_forbids; simpl; tauto).
  change (schemaFields transactionType0x0Schema)
    with ["accessList"; "maxFeePerGas"; "maxPriorityFeePerGas"]%string.
  destruct (presentFields tx _) as [| k rest]; [by destruct Hsome | reflexivity].
Qed.

(** X5: an explicit type that is one of the three tags is checked against
    the schema of that tag and nothing else: if a forbidden property is
    set the record is rejected for the declared tag with exactly the set
    forbidden properties reported, otherwise the formatted tag is
    returned. *)
Theorem explicit_known_type_outcome (tx : gmap string JSValue)
    (schema : JsonSchema) (tag : string) :
  switchType (tx.["type"]) = Some (schema, tag) ->
  parser tx
  = match presentFields tx (schemaFields schema) with
    | [] => Return (formatUint (JString tag))
    | errors => Throw (InvalidPropertiesForTransactionTypeError errors tag)
    end.
Proof.
  intros Hsw.
  destruct (switchType_Some _ _ _ Hsw) as (Hty & _ & _ & Hnull).
  unfold defaultTransactionTypeParser. rewrite Hsw, Hty. simpl.
  rewrite <- Hty, validate_presentFields by done.
  by destruct (presentFields tx (schemaFields schema)).
Qed.

(** ** The classifier without an explicit type, rule by rule *)

Lemma fallback_returns (tx : gmap string JSValue) :
  exists v, hardforkFallback HardforksOrdered tx = Return v
            /\ (v = JUndefined \/ v = JString "0x0" \/ v = JString "0x2")
            /\ (v = JString "0x2" -> isNullish (tx.["gasPrice"]) = true).
Proof.
  unfold hardforkFallback.
  destruct (isUndefined (givenHardfork tx)); [eexists; split; [done | split; [auto | done]] |].
  simpl. destruct (_ >=? _).
  - destruct (isNullish (tx.["gasPrice"])); simpl;
      eexists; (split; [done | split; [auto | done]]).
  - destruct (_ =? _); eexists; (split; [done | split; [auto | done]]).
Qed.

Lemma parser_untyped (tx : gmap string JSValue) :
  isNullish (tx.["type"]) = true ->
  parser tx
  = if negb (isNullish (tx.["gas"])) && negb (isNullish (tx.["gasPrice"])) then
      match presentFields tx (schemaFields transactionType0x0Schema) with
      | [] => Return (JString "0x0")
      | errors => Throw (InvalidPropertiesForTransactionTypeError errors "0x0")
      end
    else if negb (isNullish (tx.["maxFeePerGas"]))
            || negb (isNullish (tx.["maxPriorityFeePerGas"])) then
      match presentFields tx (schemaFields transactionType0x2Schema) with
      | [] => Return (JString "0x2")
      | errors => Throw (InvalidPropertiesForTransactionTypeError errors "0x2")
      end
    else if negb (isNullish (tx.["accessList"])) then Return (JString "0x1")
    else hardforkFallback HardforksOrdered tx.
Proof.
  intros Hty. unfold defaultTransactionTypeParser. rewrite Hty.
  cbn [negb].
  rewrite !validate_presentFields by (apply schema_only_forbids; simpl; tauto).
  destruct (negb (isNullish (tx.["gas"])) && negb (isNullish (tx.["gasPrice"]))).
  { by destruct (presentFields tx (schemaFields transactionType0x0Schema)). }
  destruct (negb (isNullish (tx.["maxFeePerGas"]))
            || negb (isNullish (tx.["maxPriorityFeePerGas"]))) eqn:Hfee.
  { by destruct (presentFields tx (schemaFields transactionType0x2Schema)). }
  apply orb_false_elim in Hfee as [Hf Hp]. apply negb_false_iff in Hf, Hp.
  destruct (negb (isNullish (tx.["accessList"]))) eqn:Ha.
  { assert (Hnone : presentFields tx (schemaFields transactionType0x1Schema) = []).
    { apply presentFields_nil. intros k Hk. simpl in Hk. intuition (subst; done). }
    by rewrite Hnone. }
  apply negb_false_iff in Ha.
  by rewrite gasPriceOnlyCheck_ok.
Qed.

Lemma parser_typed (tx : gmap string JSValue) :
  isNullish (tx.["type"]) = false ->
  parser tx
  = match switchType (tx.["type"]) with
    | None => Return (formatUint (tx.["type"]))
    | Some (schema, tag) =>
        match presentFields tx (schemaFields schema) with
        | [] => Return (formatUint (tx.["type"]))
        | errors => Throw (InvalidPropertiesForTransactionTypeError errors tag)
        end
    end.
Proof.
  intros Hty. unfold defaultTransactionTypeParser. rewrite Hty. cbn [negb].
  destruct (switchType (tx.["type"])) as [[schema tag] |] eqn:Hsw; [| done].
  destruct (switchType_Some _ _ _ Hsw) as (_ & _ & _ & Hnull).
  rewrite validate_presentFields by done.
  by destruct (presentFields tx (schemaFields schema)).
Qed.

(** X6: whatever the record, an error thrown by the classifier is for one
    of the three tags, and its list is not empty and is exactly the
    properties that the schema of that tag forbids and that are set on the
    record; a property that is absent or null is never reported. *)
Theorem thrown_error_names_set_forbidden_fields (tx : gmap string JSValue) (e : Thrown) :
  parser tx = Throw e ->
  exists errors tag schema,
    e = InvalidPropertiesForTransactionTypeError errors tag
    /\ switchType (JString tag) = Some (schema, tag)
    /\ errors = presentFields tx (schemaFields schema)
    /\ errors <> []
    /\ (forall k, In k errors -> isNullish (tx.[k]) = false).
Proof.
  intros Hthrow.
  assert (Hfound : exists tag schema,
             switchType (JString tag) = Some (schema, tag)
             /\ presentFields tx (schemaFields schema) <> []
             /\ e = InvalidPropertiesForTransactionTypeError
                      (presentFields tx (schemaFields schema)) tag).
  { destruct (isNullish (tx.["type"])) eqn:Hty.
    - rewrite parser_untyped in Hthrow by done.
      destruct (negb (isNullish (tx.["gas"])) && negb (isNullish (tx.["gasPrice"]))).
      { exists "0x0"%string, transactionType0x0Schema.
        destruct (presentFields tx (schemaFields transactionType0x0Schema));
          [discriminate Hthrow | by injection Hthrow as <-]. }
      destruct (negb (isNullish (tx.["maxFeePerGas"]))
                || negb (isNullish (tx.["maxPriorityFeePerGas"]))).
      { exists "0x2"%string, transactionType0x2Schema.
        destruct (presentFields tx (schemaFields transactionType0x2Schema));
          [discriminate Hthrow | by injection Hthrow as <-]. }
      destruct (negb (isNullish (tx.["accessList"]))); [discriminate Hthrow |].
      destruct (fallback_returns tx) as (v & Hv & _). congruence.
    - rewrite parser_typed in Hthrow by done.
      destruct (switchType (tx.["type"])) as [[schema tag] |] eqn:Hsw; [| discriminate Hthrow].
      exists tag, schema.
      destruct (switchType_Some _ _ _ Hsw) as (Heq & _). rewrite Heq in Hsw.
      destruct (presentFields tx (schemaFields schema));
        [discriminate Hthrow | by injection Hthrow as <-]. }
  destruct Hfound as (tag & schema & Hsw & Hsome & ->).
  exists (presentFields tx (schemaFields schema)), tag, schema.
  repeat split; try done.
  intros k Hk. by apply presentFields_In in Hk as [_ Hk].
Qed.

(** X7: a record with no dynamic-fee field and no access list is rejected
    in one case only, an explicit type ['0x2'] together with [gasPrice];
    in every other case the classifier returns. *)
Theorem no_newer_fields_returns (tx : gmap string JSValue) :
  isNullish (tx.["accessList"]) = true ->
  isNullish (tx.["maxFeePerGas"]) = true ->
  isNullish (tx.["maxPriorityFeePerGas"]) = true ->
  (tx.["type"] = JString "0x2" /\ isNullish (tx.["gasPrice"]) = false
   -> parser tx = Throw (InvalidPropertiesForTransactionTypeError ["gasPrice"] "0x2"))
  /\ (tx.["type"] <> JString "0x2" \/ isNullish (tx.["gasPrice"]) = true
      -> exists v, parser tx = Return v).
Proof.
  intros Ha Hf Hp.
  assert (H0 : presentFields tx (schemaFields transactionType0x0Schema) = []).
  { apply presentFields_nil. intros k Hk. simpl in Hk. intuition (subst; done). }
  assert (H1 : presentFields tx (schemaFields transactionType0x1Schema) = []).
  { apply presentFields_nil. intros k Hk. simpl in Hk. intuition (subst; done). }
  split.
  - intros [Hty Hgp].
    rewrite parser_typed by (by rewrite Hty). rewrite Hty.
    change (switchType (JString "0x2")) with (Some (transactionType0x2Schema, "0x2"%string)).
    unfold presentFields; simpl. by rewrite Hgp.
  - intros Hnot.
    destruct (isNullish (tx.["type"])) eqn:Hty.
    + rewrite parser_untyped by done. rewrite H0, Hf, Hp, Ha. simpl.
      destruct (negb (isNullish (tx.["gas"])) && negb (isNullish (tx.["gasPrice"])));
        [by eexists |].
      destruct (fallback_returns tx) as (v & Hv & _). by exists v.
    + rewrite parser_typed by done.
      destruct (switchType (tx.["type"])) as [[schema tag] |] eqn:Hsw; [| by eexists].
      destruct (switchType_Some _ _ _ Hsw) as (Heq & _ & Hschema & _).
      simpl in Hschema. destruct Hschema as [<- | [<- | [<- | []]]].
      * rewrite H0. by eexists.
      * rewrite H1. by eexists.
      * assert (Htag : tag = "0x2"%string).
        { rewrite Heq in Hsw. unfold switchType in Hsw.
          destruct (strictEqString (JString tag) "0x0"); [discriminate Hsw |].
          destruct (strictEqString (JString tag) "0x1"); [discriminate Hsw |].
          destruct (strictEqString (JString tag) "0x2"); [| discriminate Hsw].
          by injection Hsw as <-. }
        subst tag. destruct Hnot as [Hnot | Hgp]; [done |].
        assert (H2 : presentFields tx (schemaFields transactionType0x2Schema) = []).
        { apply presentFields_nil. intros k Hk. simpl in Hk. intuition (subst; done). }
        rewrite H2. by eexists.
Qed.

(** X8: on a record whose type field is absent or is exactly one of the
    three tag strings, a returned ['0x0'], ['0x1'] or ['0x2'] is always
    compatible with the record: no property that the schema of the
    returned tag forbids is set. *)
Theorem returned_tag_is_compatible (tx : gmap string JSValue) (tag : string) :
  fixesKnownTags formatUint ->
  isNullish (tx.["type"]) = true \/ isKnownTag (tx.["type"]) = true ->
  parser tx = Return (JString tag) ->
  (tag = "0x0"%string ->
   isNullish (tx.["accessList"]) = true
   /\ isNullish (tx.["maxFeePerGas"]) = true
   /\ isNullish (tx.["maxPriorityFeePerGas"]) = true)
  /\ (tag = "0x1"%string ->
      isNullish (tx.["maxFeePerGas"]) = true
      /\ isNullish (tx.["maxPriorityFeePerGas"]) = true)
  /\ (tag = "0x2"%string -> isNullish (tx.["gasPrice"]) = true).
Proof.
  intros Hfmt Hcases Hret.
  assert (Hcompatible : forall schema,
             switchType (JString tag) = Some (schema, tag) ->
             presentFields tx (schemaFields schema) = []).
  { intros schema Hschema.
    destruct (isNullish (tx.["type"])) eqn:Hty.
    - clear Hcases. rewrite parser_untyped in Hret by done.
      destruct (negb (isNullish (tx.["gas"])) && negb (isNullish (tx.["gasPrice"]))).
      { destruct (presentFields tx (schemaFields transactionType0x0Schema)) eqn:H0;
          [| discriminate Hret].
        injection Hret as <-. by injection Hschema as <-. }
      destruct (negb (isNullish (tx.["maxFeePerGas"]))
                || negb (isNullish (tx.["maxPriorityFeePerGas"]))) eqn:Hfee.
      { destruct (presentFields tx (schemaFields transactionType0x2Schema)) eqn:H2;
          [| discriminate Hret].
        injection Hret as <-. by injection Hschema as <-. }
      apply orb_false_elim in Hfee as [Hf Hp]. apply negb_false_iff in Hf, Hp.
      destruct (negb (isNullish (tx.["accessList"]))) eqn:Ha.
      { injection Hret as <-. injection Hschema as <-.
        apply presentFields_nil. intros k Hk. simpl in Hk. intuition (subst; done). }
      apply negb_false_iff in Ha.
      destruct (fallback_returns tx) as (v & Hv & Hrange & Hgp).
      rewrite Hv in Hret. injection Hret as ->.
      destruct Hrange as [Hv' | [Hv' | Hv']]; [discriminate Hv' | |];
        injection Hv' as ->; injection Hschema as <-;
        apply presentFields_nil; intros k Hk; simpl in Hk.
      + intuition (subst; done).
      + destruct Hk as [<- | []]. by apply Hgp.
    - destruct Hcases as [Hc | Hknown]; [congruence |].
      rewrite parser_typed in Hret by done.
      destruct (switchType (tx.["type"])) as [[schema' tag'] |] eqn:Hsw.
      + destruct (switchType_Some _ _ _ Hsw) as (Heq & Htag' & _).
        rewrite Heq in Hsw, Hret.
        destruct (presentFields tx (schemaFields schema')) eqn:Hnone; [| discriminate Hret].
        rewrite Hfmt in Hret by done. injection Hret as ->.
        rewrite Hsw in Hschema. by injection Hschema as <-.
      + apply isKnownTag_true in Hknown as [Hk | [Hk | Hk]];
          rewrite Hk in Hsw; discriminate Hsw. }
  split; [| split]; intros ->.
  - pose proof (proj1 (presentFields_nil tx _) (Hcompatible _ switchType_0x0)) as Hall.
    repeat split; apply Hall; simpl; tauto.
  - pose proof (proj1 (presentFields_nil tx _) (Hcompatible _ switchType_0x1)) as Hall.
    split; apply Hall; simpl; tauto.
  - pose proof (proj1 (presentFields_nil tx _) (Hcompatible _ switchType_0x2)) as Hall.
    apply Hall; simpl; tauto.
Qed.

(** X9: without an explicit type the classifier answers [undefined],
    ['0x0'], ['0x1'] or ['0x2'] and nothing else; ['0x1'] is answered only
    for a record that carries an access list, and [undefined] only when no
    rule on field presence matched. *)
Theorem untyped_results (tx : gmap string JSValue) (v : JSValue) :
  isNullish (tx.["type"]) = true ->
  parser tx = Return v ->
  (v = JUndefined \/ v = JString "0x0" \/ v = JString "0x1" \/ v = JString "0x2")
  /\ (v = JString "0x1" -> isNullish (tx.["accessList"]) = false)
  /\ (v = JUndefined -> decidedByFields tx = false).
Proof.
  intros Hty Hret. rewrite parser_untyped in Hret by done.
  unfold decidedByFields. rewrite Hty. cbn [negb orb].
  destruct (negb (isNullish (tx.["gas"])) && negb (isNullish (tx.["gasPrice"]))).
  { destruct (presentFields tx (schemaFields transactionType0x0Schema)) eqn:H0;
      [| discriminate Hret].
    injection Hret as <-. repeat split; (discriminate || auto). }
  destruct (negb (isNullish (tx.["maxFeePerGas"]))
            || negb (isNullish (tx.["maxPriorityFeePerGas"]))).
  { destruct (presentFields tx (schemaFields transactionType0x2Schema)) eqn:H2;
      [| discriminate Hret].
    injection Hret as <-. repeat split; (discriminate || auto). }
  destruct (negb (isNullish (tx.["accessList"]))) eqn:Ha.
  { injection Hret as <-. apply negb_true_iff in Ha. repeat split; (discriminate || auto). }
  destruct (fallback_returns tx) as (v' & Hv & Hrange & _).
  rewrite Hv in Hret. injection Hret as ->.
  split; [tauto | split; [| done]].
  intros ->. destruct Hrange as [? | [? | ?]]; discriminate.
Qed.

End ClassifierRules.

(** ** What the classifier looks at *)

Lemma presentFields_agree (tx tx' : gmap string JSValue) (names : list string) :
  (forall k, In k names -> isNullish (tx'.[k]) = isNullish (tx.[k])) ->
  presentFields tx' names = presentFields tx names.
Proof.
  intros Hsame. unfold presentFields.
  apply List.filter_ext_in. intros k Hk. by rewrite (Hsame k Hk).
Qed.

Lemma fallback_agree (keys : list string) (tx tx' : gmap string JSValue) :
  givenHardfork tx' = givenHardfork tx ->
  isNullish (tx'.["gasPrice"]) = isNullish (tx.["gasPrice"]) ->
  hardforkFallback keys tx' = hardforkFallback keys tx.
Proof. intros Hgiven Hgp. unfold hardforkFallback. by rewrite Hgiven, Hgp. Qed.

Section ClassifierAgreement.

Variables HardforksOrdered HardforksOrdered' : list string.
Variable formatUint : JSValue -> JSValue.

Abbreviation parser := (defaultTransactionTypeParser HardforksOrdered formatUint).
Abbreviation parser' := (defaultTransactionTypeParser HardforksOrdered' formatUint).

(** Two records on which the classifier takes the same path: the same
    type, the same answer to each test on field presence, and either a
    test that matches or the same table and resolved hardfork. *)
Lemma parser_agree_core (tx tx' : gmap string JSValue) :
  tx'.["type"] = tx.["type"]
  \/ (isNullish (tx'.["type"]) = true /\ isNullish (tx.["type"]) = true) ->
  negb (isNullish (tx'.["gas"])) && negb (isNullish (tx'.["gasPrice"]))
  = negb (isNullish (tx.["gas"])) && negb (isNullish (tx.["gasPrice"])) ->
  (forall k, In k ["gasPrice"; "maxFeePerGas"; "maxPriorityFeePerGas"; "accessList"]%string ->
             isNullish (tx'.[k]) = isNullish (tx.[k])) ->
  decidedByFields tx = true
  \/ (HardforksOrdered' = HardforksOrdered /\ givenHardfork tx' = givenHardfork tx) ->
  parser' tx' = parser tx.
Proof.
  intros Htype Hpair Hshape Hfork.
  assert (Hgp := Hshape "gasPrice"%string ltac:(simpl; tauto)).
  assert (Hf := Hshape "maxFeePerGas"%string ltac:(simpl; tauto)).
  assert (Hp := Hshape "maxPriorityFeePerGas"%string ltac:(simpl; tauto)).
  assert (Ha := Hshape "accessList"%string ltac:(simpl; tauto)).
  destruct (isNullish (tx.["type"])) eqn:Hty.
  - assert (Hty' : isNullish (tx'.["type"]) = true)
      by (destruct Htype as [-> | [? _]]; done).
    rewrite (parser_untyped _ _ tx' Hty'), (parser_untyped _ _ tx Hty).
    rewrite Hpair, Hf, Hp, Ha.
    rewrite (presentFields_agree tx tx' (schemaFields transactionType0x0Schema))
      by (intros k Hk; apply Hshape; simpl in *; tauto).
    rewrite (presentFields_agree tx tx' (schemaFields transactionType0x2Schema))
      by (intros k Hk; apply Hshape; simpl in *; tauto).
    destruct (negb (isNullish (tx.["gas"])) && negb (isNullish (tx.["gasPrice"]))) eqn:Hg;
      [done |].
    destruct (negb (isNullish (tx.["maxFeePerGas"]))
              || negb (isNullish (tx.["maxPriorityFeePerGas"]))) eqn:Hfee; [done |].
    destruct (negb (isNullish (tx.["accessList"]))) eqn:Hacc; [done |].
    destruct Hfork as [Hdecided | [-> Hgiven]].
    + unfold decidedByFields in Hdecided.
      rewrite Hty, Hg, Hfee, Hacc in Hdecided. discriminate Hdecided.
    + by apply fallback_agree.
  - assert (Heq : tx'.["type"] = tx.["type"])
      by (destruct Htype as [? | [_ ?]]; [done | congruence]).
    rewrite !parser_typed by congruence. rewrite Heq.
    destruct (switchType (tx.["type"])) as [[schema tag] |] eqn:Hsw; [| done].
    destruct (switchType_Some _ _ _ Hsw) as (_ & _ & Hschema & _).
    rewrite (presentFields_agree tx tx' (schemaFields schema)); [done |].
    intros k Hk. apply Hshape.
    simpl in Hschema. destruct Hschema as [<- | [<- | [<- | []]]]; simpl in *; tauto.
Qed.

End ClassifierAgreement.

Lemma givenHardfork_agree (tx tx' : gmap string JSValue) :
  tx'.["hardfork"] = tx.["hardfork"] ->
  tx'.["common"] = tx.["common"] ->
  givenHardfork tx' = givenHardfork tx.
Proof. intros Hh Hc. unfold givenHardfork. by rewrite Hh, Hc. Qed.

Section ClassifierFrame.

Variables HardforksOrdered HardforksOrdered' : list string.
Variable formatUint : JSValue -> JSValue.

Abbreviation parser := (defaultTransactionTypeParser HardforksOrdered formatUint).
Abbreviation parser' := (defaultTransactionTypeParser HardforksOrdered' formatUint).

(** X10: the classifier reads eight properties of the record, [type],
    [gas], [gasPrice], [maxFeePerGas], [maxPriorityFeePerGas],
    [accessList], [hardfork] and [common]; two records that agree on
    these get the same answer, return or error, whatever else they
    carry. *)
Theorem only_read_fields_matter (tx tx' : gmap string JSValue) :
  (forall k, In k readFields -> tx'.[k] = tx.[k]) ->
  parser tx' = parser tx.
Proof.
  intros Hsame.
  apply parser_agree_core.
  - left. apply Hsame. simpl; tauto.
  - rewrite (Hsame "gas"%string), (Hsame "gasPrice"%string); [done | simpl; tauto ..].
  - intros k Hk. rewrite (Hsame k); [done |]. simpl in *. tauto.
  - right. split; [done |].
    apply givenHardfork_agree; apply Hsame; simpl; tauto.
Qed.

(** X11: of [gas], [gasPrice], [maxFeePerGas], [maxPriorityFeePerGas] and
    [accessList] only the presence is looked at: replacing the value of
    one that is set by any other non-null value changes nothing. *)
Theorem shape_field_value_does_not_matter
    (tx : gmap string JSValue) (k : string) (v : JSValue) :
  In k shapeFields ->
  isNullish (tx.[k]) = false ->
  isNullish v = false ->
  parser (<[k := v]> tx) = parser tx.
Proof.
  intros Hk Hset Hv.
  assert (Hpresence : forall k', In k' shapeFields ->
                                 isNullish ((<[k := v]> tx).[k']) = isNullish (tx.[k'])).
  { intros k' Hk'. destruct (decide (k = k')) as [<- | Hne].
    - rewrite prop_insert_eq. congruence.
    - by rewrite prop_insert_ne. }
  assert (Hother : forall k', ~ In k' shapeFields -> (<[k := v]> tx).[k'] = tx.[k']).
  { intros k' Hk'. apply prop_insert_ne. intros <-. by apply Hk'. }
  apply parser_agree_core.
  - left. apply Hother. simpl. intuition discriminate.
  - rewrite (Hpresence "gas"%string), (Hpresence "gasPrice"%string); [done | simpl; tauto ..].
  - intros k' Hk'. apply Hpresence. simpl in *. tauto.
  - right. split; [done |].
    apply givenHardfork_agree; apply Hother; simpl; intuition discriminate.
Qed.

(** X12: absent and null are the same to the classifier, on every
    property of the record: setting a property that is absent or null to
    [null] or to [undefined] changes nothing. *)
Theorem nullish_values_are_interchangeable
    (tx : gmap string JSValue) (k : string) (v : JSValue) :
  isNullish (tx.[k]) = true ->
  isNullish v = true ->
  parser (<[k := v]> tx) = parser tx.
Proof.
  intros Hold Hv.
  assert (Hpresence : forall k', isNullish ((<[k := v]> tx).[k']) = isNullish (tx.[k'])).
  { intros k'. destruct (decide (k = k')) as [<- | Hne].
    - rewrite prop_insert_eq. congruence.
    - by rewrite prop_insert_ne. }
  apply parser_agree_core.
  - destruct (decide (k = "type"%string)) as [-> | Hne].
    + right. by rewrite prop_insert_eq.
    + left. by apply prop_insert_ne.
  - by rewrite !Hpresence.
  - intros k' _. apply Hpresence.
  - right. split; [done |]. unfold givenHardfork.
    destruct (decide (k = "hardfork"%string)) as [-> | Hh].
    + rewrite prop_insert_eq, prop_insert_ne by done.
      unfold nullishCoalesce. by rewrite Hv, Hold.
    + rewrite (prop_insert_ne _ _ "hardfork") by done.
      destruct (decide (k = "common"%string)) as [-> | Hc].
      * rewrite prop_insert_eq.
        replace (optionalChain v "hardfork") with (optionalChain (tx.["common"]) "hardfork");
          [done |].
        destruct v; try discriminate Hv; destruct (tx.["common"]); by try discriminate Hold.
      * by rewrite prop_insert_ne.
Qed.

(** X13: when the record has an explicit type or matches a rule on field
    presence, the hardfork plays no part: the answer is the same for any
    two hardfork tables and any [hardfork] and [common] on the record. *)
Theorem decided_record_ignores_hardfork (tx tx' : gmap string JSValue) :
  decidedByFields tx = true ->
  (forall k, In k ("type"%string :: shapeFields) -> tx'.[k] = tx.[k]) ->
  parser' tx' = parser tx.
Proof.
  intros Hdecided Hsame.
  apply parser_agree_core.
  - left. apply Hsame. simpl; tauto.
  - rewrite (Hsame "gas"%string), (Hsame "gasPrice"%string); [done | simpl; tauto ..].
  - intros k Hk. rewrite (Hsame k); [done |]. simpl in *. tauto.
  - by left.
Qed.

(** X14: a [hardfork] set on the record takes precedence: [common] is then
    not consulted, so replacing it by anything changes nothing. *)
Theorem hardfork_field_overrides_common (tx : gmap string JSValue) (common : JSValue) :
  isNullish (tx.["hardfork"]) = false ->
  parser (<["common" := common]> tx) = parser tx.
Proof.
  intros Hset.
  assert (Hother : forall k, k <> "common"%string -> (<["common" := common]> tx).[k] = tx.[k])
    by (intros k Hk; by apply prop_insert_ne).
  apply parser_agree_core.
  - left. by apply Hother.
  - by rewrite !Hother.
  - intros k Hk. rewrite Hother; [done |]. simpl in Hk. intuition (subst; discriminate).
  - right. split; [done |]. unfold givenHardfork, nullishCoalesce.
    rewrite Hother by done. by rewrite Hset.
Qed.

(** X15: [gas] counts only together with [gasPrice]: on a record without
    [gasPrice], setting, changing or removing [gas] changes nothing. *)
Theorem gas_without_gasPrice_is_ignored (tx : gmap string JSValue) (gas : JSValue) :
  isNullish (tx.["gasPrice"]) = true ->
  parser (<["gas" := gas]> tx) = parser tx.
Proof.
  intros Hgp.
  assert (Hother : forall k, k <> "gas"%string -> (<["gas" := gas]> tx).[k] = tx.[k])
    by (intros k Hk; by apply prop_insert_ne).
  apply parser_agree_core.
  - left. by apply Hother.
  - rewrite (Hother "gasPrice"%string) by done. rewrite Hgp. simpl.
    by rewrite !andb_false_r.
  - intros k Hk. rewrite Hother; [done |]. simpl in Hk. intuition (subst; discriminate).
  - right. split; [done |]. apply givenHardfork_agree; by apply Hother.
Qed.

End ClassifierFrame.

(** ** The fallback over the whole ordering *)

Lemma indexOfFrom_same (i : Z) (keys : list string) (a b : string) :
  0 <= i ->
  indexOfFrom i keys (JString a) <> -1 ->
  indexOfFrom i keys (JString a) = indexOfFrom i keys (JString b) ->
  a = b.
Proof.
  revert i. induction keys as [| k rest IH]; intros i Hi Hfound Hsame; simpl in *; [done |].
  destruct (String.eqb_spec a k) as [-> | Ha], (String.eqb_spec b k) as [-> | Hb].
  - done.
  - destruct (indexOfFrom_range (i + 1) rest (JString b)); lia.
  - destruct (indexOfFrom_range (i + 1) rest (JString a)); lia.
  - apply (IH (i + 1)); [lia | done | done].
Qed.

Lemma decidedByFields_false (tx : gmap string JSValue) :
  decidedByFields tx = false ->
  isNullish (tx.["type"]) = true
  /\ negb (isNullish (tx.["gas"])) && negb (isNullish (tx.["gasPrice"])) = false
  /\ isNullish (tx.["maxFeePerGas"]) = true
  /\ isNullish (tx.["maxPriorityFeePerGas"]) = true
  /\ isNullish (tx.["accessList"]) = true.
Proof.
  unfold decidedByFields. intros H.
  apply orb_false_elim in H as [H Ha].
  apply orb_false_elim in H as [H Hfee].
  apply orb_false_elim in H as [Hty Hpair].
  apply orb_false_elim in Hfee as [Hf Hp].
  apply negb_false_iff in Hty, Ha, Hf, Hp. done.
Qed.

Section FallbackTable.

Variable HardforksOrdered : list string.
Variable formatUint : JSValue -> JSValue.

Abbreviation parser := (defaultTransactionTypeParser HardforksOrdered formatUint).
Abbreviation rank := (indexOf HardforksOrdered).

(** X16: on a record that no rule on field presence decides, with berlin
    ranked before london in the ordering: at Berlin the answer is ['0x0']
    with or without [gasPrice]; from London on it is ['0x0'] with
    [gasPrice] and ['0x2'] without; for every other name, older, in
    between or unknown, it is [undefined]. *)
Theorem fallback_over_the_ordering (tx : gmap string JSValue) (name : string) :
  decidedByFields tx = false ->
  givenHardfork tx = JString name ->
  In "berlin"%string HardforksOrdered ->
  rank (JString "berlin") < rank (JString "london") ->
  (name = "berlin"%string -> parser tx = Return (JString "0x0"))
  /\ (rank (JString "london") <= rank (JString name) ->
      parser tx = Return (if isNullish (tx.["gasPrice"])
                          then JString "0x2" else JString "0x0"))
  /\ (name <> "berlin"%string ->
      rank (JString name) < rank (JString "london") ->
      parser tx = Return JUndefined).
Proof.
  intros Hundecided Hgiven Hberlin Horder.
  destruct (decidedByFields_false tx Hundecided) as (Hty & Hpair & Hf & Hp & Ha).
  rewrite parser_fallback by done.
  rewrite fallback_defined by (by rewrite Hgiven).
  rewrite Hgiven.
  apply (indexOfFrom_In 0) in Hberlin; [| done].
  split; [| split].
  - intros ->.
    destruct (Z.geb_spec (rank (JString "berlin")) (rank (JString "london"))); [lia |].
    by rewrite Z.eqb_refl.
  - intros Hlondon.
    destruct (Z.geb_spec (rank (JString name)) (rank (JString "london"))); [| lia].
    by destruct (isNullish (tx.["gasPrice"])).
  - intros Hname Hbefore.
    destruct (Z.geb_spec (rank (JString name)) (rank (JString "london"))); [lia |].
    destruct (Z.eqb_spec (rank (JString name)) (rank (JString "berlin"))) as [Heq | Hne];
      [| done].
    destruct Hname. symmetry.
    apply (indexOfFrom_same 0 HardforksOrdered "berlin" name); unfold indexOf in *; lia.
Qed.

End FallbackTable.

(** ** The raw sniffer on typed envelopes *)

Lemma sniffer_low_byte (b : Byte.byte) (rest : list Byte.byte) :
  (Byte.to_N b <= 127)%N ->
  detectRawTransactionType (b :: rest) = Some ("0x" ++ hexDigits (Byte.to_N b))%string.
Proof. destruct b; intros Hlow; (reflexivity || (exfalso; by apply Hlow)). Qed.

Lemma hexDigits_byte (b : Byte.byte) :
  parseDigits 16 hexDigitValue (hexDigits (Byte.to_N b)) 0%N = Some (Byte.to_N b).
Proof. destruct b; reflexivity. Qed.

(** X17: the tag of the raw sniffer is ["0x0"] exactly when the first
    byte is 0 or above 127, and below 128 the tag determines the first
    byte: two buffers with the same tag start with the same byte. *)
Theorem sniffer_tag_determines_low_byte (b b' : Byte.byte) (rest rest' : list Byte.byte) :
  (detectRawTransactionType (b :: rest) = Some "0x0"%string
   <-> (Byte.to_N b = 0 \/ 127 < Byte.to_N b)%N)
  /\ ((Byte.to_N b <= 127)%N ->
      (Byte.to_N b' <= 127)%N ->
      detectRawTransactionType (b :: rest) = detectRawTransactionType (b' :: rest') ->
      b = b').
Proof.
  split.
  - change (detectRawTransactionType (b :: rest)) with (detectRawTransactionType [b]).
    destruct b; (split; [intros H | intros [H | H]]);
      first [ discriminate H
            | by (vm_compute in H; discriminate H)
            | reflexivity
            | (left; reflexivity)
            | (right; reflexivity) ].
  - intros Hb Hb' Hsame.
    rewrite !sniffer_low_byte in Hsame by done.
    injection Hsame as Hdigits.
    change (hexDigits (Byte.to_N b) = hexDigits (Byte.to_N b')) in Hdigits.
    pose proof (hexDigits_byte b) as Hparse.
    rewrite Hdigits, hexDigits_byte in Hparse. injection Hparse as Hn.
    pose proof (Strings.Byte.of_to_N b) as Hof. rewrite <- Hn in Hof.
    rewrite Strings.Byte.of_to_N in Hof. by injection Hof.
Qed.

(** * Instances of the further properties *)

Ltac among_fields Hk :=
  simpl in Hk; repeat (destruct Hk as [<- | Hk]; [reflexivity |]); destruct Hk.

Lemma accessList_untyped_is_access_list_witness :
  isNullish (txAccessList.["gasPrice"]) = false
  /\ web3TransactionTypeParser txAccessList = Return (JString "0x1").
Proof.
  split; [reflexivity |].
  apply (accessList_untyped_is_access_list web3HardforksOrdered formatUintHex txAccessList);
    first [reflexivity | left; reflexivity].
Defined.

Lemma dynamic_fee_field_untyped_is_dynamic_fee_witness :
  web3TransactionTypeParser (<["maxPriorityFeePerGas" := JString "0x1dcd6500"]> txBare)
  = Return (JString "0x2").
Proof.
  apply (dynamic_fee_field_untyped_is_dynamic_fee web3HardforksOrdered formatUintHex
           (<["maxPriorityFeePerGas" := JString "0x1dcd6500"]> txBare));
    first [reflexivity | right; reflexivity].
Defined.

Lemma dynamic_fee_with_gasPrice_raises_witness :
  web3TransactionTypeParser (<["maxFeePerGas" := JString "0x59682f00"]> (txGasPriceOn "london"))
  = Throw (InvalidPropertiesForTransactionTypeError ["gasPrice"] "0x2").
Proof.
  apply (dynamic_fee_with_gasPrice_raises web3HardforksOrdered formatUintHex
           (<["maxFeePerGas" := JString "0x59682f00"]> (txGasPriceOn "london")));
    first [reflexivity | left; reflexivity].
Defined.

Lemma legacy_shape_with_newer_fields_raises_witness :
  web3TransactionTypeParser (<["maxFeePerGas" := JString "0x59682f00"]> txLegacy)
  = Throw (InvalidPropertiesForTransactionTypeError ["maxFeePerGas"] "0x0").
Proof.
  destruct (legacy_shape_with_newer_fields_raises web3HardforksOrdered formatUintHex
              (<["maxFeePerGas" := JString "0x59682f00"]> txLegacy)) as [_ Hthrown];
    [reflexivity | reflexivity | reflexivity | right; left; reflexivity |].
  exact Hthrown.
Defined.

Lemma explicit_known_type_outcome_witness :
  web3TransactionTypeParser (txTyped (JString "0x2") txLegacy)
  = Throw (InvalidPropertiesForTransactionTypeError ["gasPrice"] "0x2")
  /\ web3TransactionTypeParser (txTyped (JString "0x1") txLegacy) = Return (JString "0x1").
Proof.
  split.
  - apply (explicit_known_type_outcome web3HardforksOrdered formatUintHex
             (txTyped (JString "0x2") txLegacy) transactionType0x2Schema "0x2").
    reflexivity.
  - apply (explicit_known_type_outcome web3HardforksOrdered formatUintHex
             (txTyped (JString "0x1") txLegacy) transactionType0x1Schema "0x1").
    reflexivity.
Defined.

Lemma thrown_error_names_set_forbidden_fields_witness :
  exists errors tag schema,
    InvalidPropertiesForTransactionTypeError ["accessList"] "0x0"
    = InvalidPropertiesForTransactionTypeError errors tag
    /\ switchType (JString tag) = Some (schema, tag)
    /\ errors = presentFields (txTyped (JString "0x0") txAccessList) (schemaFields schema)
    /\ errors <> []
    /\ (forall k, In k errors ->
                  isNullish ((txTyped (JString "0x0") txAccessList).[k]) = false).
Proof.
  apply (thrown_error_names_set_forbidden_fields web3HardforksOrdered formatUintHex
           (txTyped (JString "0x0") txAccessList)).
  reflexivity.
Defined.

Lemma no_newer_fields_returns_witness :
  web3TransactionTypeParser (txTyped (JString "0x2") txLegacy)
  = Throw (InvalidPropertiesForTransactionTypeError ["gasPrice"] "0x2")
  /\ exists v, web3TransactionTypeParser (txTyped (JString "0x1") txLegacy) = Return v.
Proof.
  split.
  - apply (no_newer_fields_returns web3HardforksOrdered formatUintHex
             (txTyped (JString "0x2") txLegacy)); first [reflexivity | split; reflexivity].
  - apply (no_newer_fields_returns web3HardforksOrdered formatUintHex
             (txTyped (JString "0x1") txLegacy)); first [reflexivity | left; discriminate].
Defined.

Lemma returned_tag_is_compatible_witness :
  isNullish (txDynamicFee.["gasPrice"]) = true.
Proof.
  apply (returned_tag_is_compatible web3HardforksOrdered formatUintHex txDynamicFee "0x2"
           formatUintHex_fixesKnownTags); first [reflexivity | left; reflexivity].
Defined.

Lemma untyped_results_witness :
  isNullish (txAccessList.["accessList"]) = false.
Proof.
  apply (untyped_results web3HardforksOrdered formatUintHex txAccessList (JString "0x1"));
    reflexivity.
Defined.

Lemma only_read_fields_matter_witness :
  web3TransactionTypeParser txVerbose = web3TransactionTypeParser txLegacy.
Proof.
  apply (only_read_fields_matter web3HardforksOrdered formatUintHex txLegacy txVerbose).
  intros k Hk. among_fields Hk.
Defined.

Lemma shape_field_value_does_not_matter_witness :
  web3TransactionTypeParser (<["gasPrice" := JNumber 1]> txLegacy)
  = web3TransactionTypeParser txLegacy.
Proof.
  apply (shape_field_value_does_not_matter web3HardforksOrdered formatUintHex
           txLegacy "gasPrice" (JNumber 1)); first [reflexivity | simpl; tauto].
Defined.

Lemma nullish_values_are_interchangeable_witness :
  web3TransactionTypeParser (<["accessList" := JNull]> txLegacy)
  = web3TransactionTypeParser txLegacy.
Proof.
  apply (nullish_values_are_interchangeable web3HardforksOrdered formatUintHex
           txLegacy "accessList" JNull); reflexivity.
Defined.

Lemma decided_record_ignores_hardfork_witness :
  defaultTransactionTypeParser [] formatUintHex (<["hardfork" := JString "homestead"]> txLegacy)
  = web3TransactionTypeParser txLegacy.
Proof.
  apply (decided_record_ignores_hardfork web3HardforksOrdered [] formatUintHex
           txLegacy (<["hardfork" := JString "homestead"]> txLegacy)); [reflexivity |].
  intros k Hk. among_fields Hk.
Defined.

Lemma hardfork_field_overrides_common_witness :
  web3TransactionTypeParser
    (<["common" := JObject (list_to_map [("hardfork"%string, JString "homestead")])]>
       (txGasPriceOn "london"))
  = web3TransactionTypeParser (txGasPriceOn "london").
Proof.
  apply (hardfork_field_overrides_common web3HardforksOrdered formatUintHex
           (txGasPriceOn "london")).
  reflexivity.
Defined.

Lemma gas_without_gasPrice_is_ignored_witness :
  web3TransactionTypeParser (<["gas" := JString "0x5208"]> (txBareOnCommon "london"))
  = web3TransactionTypeParser (txBareOnCommon "london").
Proof.
  apply (gas_without_gasPrice_is_ignored web3HardforksOrdered formatUintHex
           (txBareOnCommon "london")).
  reflexivity.
Defined.

Lemma fallback_over_the_ordering_witness :
  web3TransactionTypeParser (txBareOnCommon "berlin") = Return (JString "0x0")
  /\ web3TransactionTypeParser (txBareOnCommon "muirGlacier") = Return JUndefined.
Proof.
  split.
  - destruct (fallback_over_the_ordering web3HardforksOrdered formatUintHex
                (txBareOnCommon "berlin") "berlin") as (Hberlin & _ & _);
      [reflexivity | reflexivity | simpl; tauto | rank_facts |].
    apply Hberlin. reflexivity.
  - destruct (fallback_over_the_ordering web3HardforksOrdered formatUintHex
                (txBareOnCommon "muirGlacier") "muirGlacier") as (_ & _ & Hother);
      [reflexivity | reflexivity | simpl; tauto | rank_facts |].
    apply Hother; [discriminate | rank_facts].
Defined.

Lemma sniffer_tag_determines_low_byte_witness :
  Byte.x02 = Byte.x02.
Proof.
  apply (sniffer_tag_determines_low_byte Byte.x02 Byte.x02 [Byte.xf8] [Byte.xc0]);
    first [reflexivity | (vm_compute; discriminate)].
Defined.
